(** * ZCAP-LD invocation verification (pkg/zcapld/verify.go)

    A shallow embedding of [Verifier.Verify], [verifyCapabilityChain],
    [stringsContain] and [isInvoker], followed by the properties the
    specification states about them.

    Conventions of the embedding:
    - a Go pointer is an [option]; dereferencing [None] is the runtime
      panic "nil pointer dereference", kept as the outcome [Panics];
    - a Go [error] value is [option error], [None] being [nil]; a Go
      multiple return [(x, err)] is a pair;
    - the resolver is the only collaborator that is called: every call is
      logged, in order, in the first component of a [Run];
    - the receiver of [Verify] is a pointer and the resolver it holds is an
      interface value: both may be nil, and [NewVerifier] accepts a nil
      resolver. *)

From Stdlib Require Import String Ascii List Bool Arith.
Import ListNotations.
Open Scope string_scope.
Open Scope list_scope.

Set Implicit Arguments.

(** ** Go errors: [errors.New] and [fmt.Errorf] *)

(** [errorString] is what [errors.New] (and [fmt.Errorf] without [%w])
    builds; [wrapError] is what [fmt.Errorf] builds when the format has a
    [%w] verb: the whole formatted message and the wrapped error. *)
Inductive error : Type :=
| errorString (s : string)
| wrapError (msg : string) (err : error).

Definition Error (e : error) : string :=
  match e with
  | errorString s => s
  | wrapError msg _ => msg
  end.

Definition errors_New (text : string) : error := errorString text.

(** [fmt.Errorf(prefix + "%w", err)]. *)
Definition Errorf_w (prefix : string) (err : error) : error :=
  wrapError (prefix ++ Error err) err.

(** The double quote character of the Go string literals. *)
Definition dq : string := String "034"%char EmptyString.

(** [%+v] of a [[]string]: the elements separated by one space, in brackets. *)
Definition fmt_strings (strs : list string) : string :=
  "[" ++ String.concat " " strs ++ "]".

(** ** Outcomes and resolver calls *)

Inductive outcome (A : Type) : Type :=
| Returns (a : A)
| Panics.

Arguments Panics {A}.

(** A run: the URIs passed to the resolver so far, then how the call ended. *)
Definition Run (A : Type) : Type := (list string * outcome A)%type.

Definition ret {A : Type} (a : A) : Run A := ([], Returns a).

Definition bind {A B : Type} (m : Run A) (f : A -> Run B) : Run B :=
  match m with
  | (calls, Returns a) => let (calls', r) := f a in (calls ++ calls', r)
  | (calls, Panics) => (calls, Panics)
  end.

Notation "x <- m ;; k" := (bind m (fun x => k))
  (at level 61, m at next level, right associativity).

(** [*p]. *)
Definition deref {A : Type} (p : option A) : Run A :=
  match p with
  | Some a => ret a
  | None => ([], Panics)
  end.

(** [a && b] where only [b] dereferences a pointer. *)
Definition andThen (a : bool) (b : Run bool) : Run bool :=
  if a then b else ret false.

Definition calls {A : Type} (r : Run A) : list string := fst r.
Definition result {A : Type} (r : Run A) : outcome A := snd r.

(** ** Data model *)

(** Modelled from the spec: [InvocationTarget] and [VerificationMethod]
    are declared outside verify.go.  The target is a value inside the
    capability (identifier and type); of the method, verify.go reads [ID]
    and [Controller]. *)
Module InvocationTarget.
Record t : Type := mk { ID : string; Type_ : string }.
End InvocationTarget.

Module VerificationMethod.
Record t : Type := mk { ID : string; Controller : string }.
End VerificationMethod.

(** Modelled from the spec: the [Capability] struct is declared outside
    verify.go.  The three fields verify.go reads are kept by name; [rest]
    stands for everything else the document carries (proofs, invoker,
    controller, delegator, ...), which only the accessor methods read. *)
Module Capability.
Record t (Body : Type) : Type := mk {
  ID : string;
  InvocationTarget : InvocationTarget.t;
  AllowedAction : list string;
  rest : Body
}.
End Capability.

(** Modelled from the spec: [CapabilityInvocation] is declared outside
    verify.go; these are the fields the spec lists and verify.go reads. *)
Module CapabilityInvocation.
Record t : Type := mk {
  ExpectedTarget : string;
  ExpectedAction : string;
  ExpectedRootCapability : string;
  VerificationMethod : option VerificationMethod.t
}.
End CapabilityInvocation.

(** [Proof] of verify.go; the underscore keeps the name apart from the
    vernacular. *)
Module Proof_.
Record t (Body : Type) : Type := mk {
  Capability : option (Capability.t Body);
  CapabilityAction : string;
  VerificationMethod : string
}.
End Proof_.

(** An entry of a capability chain, a Go [interface{}]: a string, or any
    other dynamic value. *)
Inductive untyped (Dyn : Type) : Type :=
| IString (s : string)
| IOther (d : Dyn).

Arguments IString {Dyn} s.

(** Modelled from the spec: the accessor methods of [*Capability] that
    verify.go calls and that live outside it.  [fmt_v] is the [%v]
    rendering of a chain entry that is not a string. *)
Class CapabilityMethods (Body Dyn : Type) : Type := {
  validateCapabilityChain : Capability.t Body -> option error;
  capabilityChain : Capability.t Body -> list (untyped Dyn) * option error;
  invokers : Capability.t Body -> list string * option error;
  fmt_v : Dyn -> string
}.

(** Modelled from the spec: [CapabilityResolver], declared outside
    verify.go, is an interface with the one method [Resolve], from a URI to a
    capability pointer and an error. *)
Record CapabilityResolver (Body : Type) : Type := {
  Resolve : string -> option (Capability.t Body) * option error
}.

(** The field [zcaps] holds an interface value, nil when [None]. *)
Record Verifier (Body : Type) : Type := {
  zcaps : option (CapabilityResolver Body)
}.

Definition NewVerifier {Body : Type} (zcapResolver : option (CapabilityResolver Body))
  : option (Verifier Body) * option error :=
  (Some {| zcaps := zcapResolver |}, None).

(** [v.zcaps.Resolve(uri)]: the receiver is dereferenced, then the method
    is called through the interface value; the call is logged once it is
    made. *)
Definition resolve {Body : Type} (v : option (Verifier Body)) (uri : string)
  : Run (option (Capability.t Body) * option error) :=
  vv <- deref v ;;
  r <- deref (zcaps vv) ;;
  ([uri], Returns (Resolve r uri)).

(** The resolver a verifier holds, if the verifier and the resolver are
    not nil, and what it answers for a URI. *)
Definition resolverOf {Body : Type} (v : option (Verifier Body))
  : option (CapabilityResolver Body) :=
  match v with
  | Some vv => zcaps vv
  | None => None
  end.

Definition zcapsResolve {Body : Type} (v : option (Verifier Body)) (uri : string)
  : option (option (Capability.t Body) * option error) :=
  option_map (fun r => Resolve r uri) (resolverOf v).

(** ** The code *)

Fixpoint stringsContain (strs : list string) (s : string) : bool :=
  match strs with
  | [] => false
  | x :: strs' => if String.eqb s x then true else stringsContain strs' s
  end.

(** The condition of the first [if] of [verifyCapabilityChain]. *)
Definition actionNotAllowed (allowed : list string) (intendedAction : string) : bool :=
  (0 <? List.length allowed)%nat && negb (String.eqb intendedAction EmptyString)
  && negb (stringsContain allowed intendedAction).

(** The error values, one per [fmt.Errorf] or [errors.New] of the file. *)
Definition errMissingCapability : error :=
  errors_New (dq ++ "capability" ++ dq
              ++ " was not found in the capability invocation proof").

Definition errActionNotAllowed (intendedAction : string) (allowed : list string) : error :=
  errorString ("capability action " ++ dq ++ intendedAction ++ dq
               ++ " is not allowed by the capability; allowed actions are: "
               ++ fmt_strings allowed).

Definition errActionMismatch (intendedAction expected : string) : error :=
  errorString ("capability action " ++ dq ++ intendedAction ++ dq
               ++ " does not match the expected capability action of "
               ++ dq ++ expected ++ dq).

Definition errResolve (rootURI : string) (err : error) : error :=
  wrapError ("failed to resolve root capability URI " ++ rootURI ++ ": " ++ Error err) err.

Definition errTargetMismatch (expected target : string) : error :=
  errorString ("expected target does not match root capability target: expected="
               ++ dq ++ expected ++ dq ++ " target=" ++ dq ++ target ++ dq).

Definition errRootMismatch (expected actual : string) : error :=
  errorString ("expected root capability does not match actual root capability: expected=("
               ++ expected ++ ") actual=(" ++ actual ++ ")").

Definition errDifferentTarget : error :=
  errors_New "the root capability must not specify a different invocation target".

Definition errMultipleChains : error :=
  errors_New "multiple capabilityChains not supported yet".

Definition errNotInvoker : error :=
  errors_New "the authorized invoker does not match the verification method or its controller".

Section Zcapld.

Context {Body Dyn : Type} {methods : CapabilityMethods Body Dyn}.

Definition errInvalidRootURI (x : untyped Dyn) : error :=
  errorString ("invalid rootURI format: "
               ++ match x with IString s => s | IOther d => fmt_v d end).

Definition verifyCapabilityChain (v : option (Verifier Body))
    (capability : option (Capability.t Body)) (intendedAction : string)
    (invocation : option CapabilityInvocation.t) : Run (option error) :=
  c <- deref capability ;;
  if actionNotAllowed (Capability.AllowedAction c) intendedAction then
    ret (Some (errActionNotAllowed intendedAction (Capability.AllowedAction c)))
  else
  inv <- deref invocation ;;
  if negb (String.eqb (CapabilityInvocation.ExpectedAction inv) intendedAction) then
    ret (Some (errActionMismatch intendedAction (CapabilityInvocation.ExpectedAction inv)))
  else
  match validateCapabilityChain c with
  | Some err => ret (Some (Errorf_w "invalid capability chain: " err))
  | None =>
  let (chain, err) := capabilityChain c in
  match err with
  | Some err => ret (Some (Errorf_w "failed to fetch capabilityChain: " err))
  | None =>
  (* lines 126-166, once isRoot, rootURI and the remaining chain are set *)
  let fromRoot (isRoot : bool) (rootURI : string) (chain : list (untyped Dyn))
      : Run (option error) :=
    r <- resolve v rootURI ;;
    let (root, err) := r in
    match err with
    | Some err => ret (Some (errResolve rootURI err))
    | None =>
    let ExpectedTarget := CapabilityInvocation.ExpectedTarget inv in
    let ExpectedRootCapability := CapabilityInvocation.ExpectedRootCapability inv in
    targetMismatch <-
      andThen (negb (String.eqb ExpectedTarget EmptyString))
        (rt <- deref root ;;
         ret (negb (String.eqb ExpectedTarget
                      (InvocationTarget.ID (Capability.InvocationTarget rt))))) ;;
    if targetMismatch then
      rt <- deref root ;;
      ret (Some (errTargetMismatch ExpectedTarget
                   (InvocationTarget.ID (Capability.InvocationTarget rt))))
    else
    rootMismatch <-
      andThen (negb (String.eqb ExpectedRootCapability EmptyString))
        (rt <- deref root ;;
         ret (negb (String.eqb ExpectedRootCapability (Capability.ID rt)))) ;;
    if rootMismatch then
      rt <- deref root ;;
      ret (Some (errRootMismatch ExpectedRootCapability (Capability.ID rt)))
    else
    differentTarget <-
      andThen (String.eqb ExpectedRootCapability EmptyString)
        (rt <- deref root ;;
         ret (negb (String.eqb (InvocationTarget.ID (Capability.InvocationTarget rt))
                      (Capability.ID rt)))) ;;
    if differentTarget then ret (Some errDifferentTarget)
    else if isRoot then ret None
    else if (0 <? List.length chain)%nat then ret (Some errMultipleChains)
    else ret None
    end in
  (* lines 108-124 *)
  match chain with
  | [] => fromRoot true (Capability.ID c) chain
  | x :: chain' =>
      match x with
      | IString rootURI => fromRoot false rootURI chain'
      | IOther _ => ret (Some (errInvalidRootURI x))
      end
  end
  end
  end.

Definition isInvoker (capability : option (Capability.t Body))
    (verificationMethod : option VerificationMethod.t) : Run (bool * option error) :=
  c <- deref capability ;;
  let (invokers, err) := invokers c in
  match err with
  | Some err => ret (false, Some (Errorf_w "failed to fetch invokers: " err))
  | None =>
  vm <- deref verificationMethod ;;
  let controller := VerificationMethod.Controller vm in
  if (0 <? List.length invokers)%nat then
    ret (stringsContain invokers (VerificationMethod.ID vm)
         || (negb (String.eqb controller EmptyString) && stringsContain invokers controller),
         None)
  else ret (false, None)
  end.

Definition Verify (v : option (Verifier Body)) (proof : option (Proof_.t Body))
    (invocation : option CapabilityInvocation.t) : Run (option error) :=
  p <- deref proof ;;
  match Proof_.Capability p with
  | None => ret (Some errMissingCapability)
  | Some _ =>
  err <- verifyCapabilityChain v (Proof_.Capability p) (Proof_.CapabilityAction p)
           invocation ;;
  match err with
  | Some err => ret (Some (Errorf_w "invalid capability chain: " err))
  | None =>
  inv <- deref invocation ;;
  r <- isInvoker (Proof_.Capability p) (CapabilityInvocation.VerificationMethod inv) ;;
  let (isInvoker, err) := r in
  match err with
  | Some err => ret (Some (Errorf_w "isInvoke: " err))
  | None =>
  if negb isInvoker then ret (Some errNotInvoker) else ret None
  end
  end
  end.

(** ** Vocabulary of the properties

    How lines 108-124 choose the root URI: the capability itself when
    its chain is empty, else the first entry, which must be a string. *)
Inductive chainRoot (c : Capability.t Body)
  : list (untyped Dyn) -> bool -> string -> list (untyped Dyn) -> Prop :=
| chainRoot_self : chainRoot c [] true (Capability.ID c) []
| chainRoot_first (uri : string) (rest : list (untyped Dyn)) :
    chainRoot c (IString uri :: rest) false uri rest.

(** Steps 1-4 of the chain verification pass: the action scoping, the
    expected-action match, the structural validation and the extraction
    of the root URI. *)
Record reachesResolver (c : Capability.t Body) (action : string)
    (inv : CapabilityInvocation.t) (isRoot : bool) (uri : string)
    (rest : list (untyped Dyn)) : Prop := {
  scoping_passes : actionNotAllowed (Capability.AllowedAction c) action = false;
  expected_action : CapabilityInvocation.ExpectedAction inv = action;
  chain_valid : validateCapabilityChain c = None;
  chain_root : exists chain,
    capabilityChain c = (chain, None) /\ chainRoot c chain isRoot uri rest
}.

(** Lines 134-166 on a resolved, non-nil root. *)
Definition rootChecks (inv : CapabilityInvocation.t) (isRoot : bool)
    (rest : list (untyped Dyn)) (root : Capability.t Body) : option error :=
  let ExpectedTarget := CapabilityInvocation.ExpectedTarget inv in
  let ExpectedRootCapability := CapabilityInvocation.ExpectedRootCapability inv in
  let target := InvocationTarget.ID (Capability.InvocationTarget root) in
  if negb (String.eqb ExpectedTarget EmptyString) && negb (String.eqb ExpectedTarget target) then
    Some (errTargetMismatch ExpectedTarget target)
  else if negb (String.eqb ExpectedRootCapability EmptyString)
          && negb (String.eqb ExpectedRootCapability (Capability.ID root)) then
    Some (errRootMismatch ExpectedRootCapability (Capability.ID root))
  else if String.eqb ExpectedRootCapability EmptyString
          && negb (String.eqb target (Capability.ID root)) then
    Some errDifferentTarget
  else if isRoot then None
  else if (0 <? List.length rest)%nat then Some errMultipleChains
  else None.

(** What the answer of the resolver leads to. *)
Definition afterResolve (inv : CapabilityInvocation.t) (isRoot : bool) (uri : string)
    (rest : list (untyped Dyn)) (r : option (Capability.t Body) * option error)
  : outcome (option error) :=
  match r with
  | (_, Some err) => Returns (Some (errResolve uri err))
  | (Some root, None) => Returns (rootChecks inv isRoot rest root)
  | (None, None) => Panics
  end.

(** Lines 126-166: the call of the resolver on the root URI, which panics
    without a verifier or a resolver, and what follows it. *)
Definition fromResolver (v : option (Verifier Body)) (inv : CapabilityInvocation.t)
    (isRoot : bool) (uri : string) (rest : list (untyped Dyn)) : Run (option error) :=
  match zcapsResolve v uri with
  | Some answer => ([uri], afterResolve inv isRoot uri rest answer)
  | None => ([], Panics)
  end.

(** Step 3 of [Verify] on the invoking capability: the verdict of the
    invoker check, as [Verify] reports it. *)
Definition invokerCheck (c : Capability.t Body)
    (verificationMethod : option VerificationMethod.t) : outcome (option error) :=
  match invokers c with
  | (_, Some err) =>
      Returns (Some (Errorf_w "isInvoke: " (Errorf_w "failed to fetch invokers: " err)))
  | (l, None) =>
      match verificationMethod with
      | None => Panics
      | Some vm =>
          if (0 <? List.length l)%nat
             && (stringsContain l (VerificationMethod.ID vm)
                 || (negb (String.eqb (VerificationMethod.Controller vm) EmptyString)
                     && stringsContain l (VerificationMethod.Controller vm)))
          then Returns None
          else Returns (Some errNotInvoker)
      end
  end.

(** [Verify] once the chain verification has reached the resolver. *)
Definition afterChain (c : Capability.t Body) (inv : CapabilityInvocation.t)
    (chainResult : outcome (option error)) : outcome (option error) :=
  match chainResult with
  | Panics => Panics
  | Returns (Some err) => Returns (Some (Errorf_w "invalid capability chain: " err))
  | Returns None => invokerCheck c (CapabilityInvocation.VerificationMethod inv)
  end.

(** What [verifyCapabilityChain] reads of an answer of the resolver: the
    error, whether the root is nil, and the root's ID and target ID. *)
Definition rootView (r : option (Capability.t Body) * option error)
  : option (string * string) * option error :=
  (option_map (fun root => (Capability.ID root,
                            InvocationTarget.ID (Capability.InvocationTarget root)))
     (fst r),
   snd r).

End Zcapld.

(** ** A stub document type for the examples

    The document stores its chain and its invoker list; the accessors read
    them back and the structural validation accepts every document. *)

Definition StubBody : Type := (list (untyped string) * list string)%type.

#[export] Instance stubMethods : CapabilityMethods StubBody string := {
  validateCapabilityChain := fun _ => None;
  capabilityChain := fun c => (fst (Capability.rest c), None);
  invokers := fun c => (snd (Capability.rest c), None);
  fmt_v := fun d => d
}.

Definition stubCapability (id target : string) (allowed : list string)
    (chain : list (untyped string)) (invs : list string) : Capability.t StubBody :=
  Capability.mk id (InvocationTarget.mk target "urn:edv:document") allowed (chain, invs).

(** A resolver that knows the given capabilities by their ID. *)
Fixpoint lookup (known : list (Capability.t StubBody)) (uri : string)
  : option (Capability.t StubBody) * option error :=
  match known with
  | [] => (None, Some (errors_New "capability not found"))
  | c :: known' =>
      if String.eqb uri (Capability.ID c) then (Some c, None) else lookup known' uri
  end.

Definition stubVerifier (known : list (Capability.t StubBody))
  : option (Verifier StubBody) :=
  Some {| zcaps := Some {| Resolve := lookup known |} |}.

Definition alice : VerificationMethod.t :=
  VerificationMethod.mk "did:ex:alice#key-1" "did:ex:alice".

(** The root capability of the end-to-end scenario of the specification. *)
Definition cap1 : Capability.t StubBody :=
  stubCapability "urn:cap:1" "urn:cap:1" ["read"] [] ["did:ex:alice"].

(** The same identity, signing with the DID itself. *)
Definition aliceDID : VerificationMethod.t :=
  VerificationMethod.mk "did:ex:alice" EmptyString.

Definition invokeBy (vm : option VerificationMethod.t) (target action root : string)
  : CapabilityInvocation.t :=
  CapabilityInvocation.mk target action root vm.

Definition invoke (target action root : string) : CapabilityInvocation.t :=
  invokeBy (Some alice) target action root.

Definition prove (c : Capability.t StubBody) (action : string) : Proof_.t StubBody :=
  Proof_.mk (Some c) action "did:ex:alice#key-1".

(** A root capability whose invocation target is not itself. *)
Definition capB : Capability.t StubBody :=
  stubCapability "urn:cap:B" "urn:edv:vault" [] [] ["did:ex:alice"].

(** A capability delegated from [cap1]. *)
Definition cap2 : Capability.t StubBody :=
  stubCapability "urn:cap:2" "urn:cap:1" ["read"] [IString "urn:cap:1"] ["did:ex:alice"].

(** A capability two delegations away from [cap1]. *)
Definition cap3 : Capability.t StubBody :=
  stubCapability "urn:cap:3" "urn:cap:1" ["read"]
    [IString "urn:cap:1"; IString "urn:cap:2"] ["did:ex:alice"].

(** [cap1] as another resolver could return it: same ID and target, other
    allowed actions and another invoker. *)
Definition cap1' : Capability.t StubBody :=
  stubCapability "urn:cap:1" "urn:cap:1" ["write"; "delete"] [] ["did:ex:mallory"].

(** Accessors whose structural validation rejects every document. *)
Definition strictMethods : CapabilityMethods StubBody string := {|
  validateCapabilityChain := fun _ => Some (errors_New "malformed capabilityChain");
  capabilityChain := fun c => (fst (Capability.rest c), None);
  invokers := fun c => (snd (Capability.rest c), None);
  fmt_v := fun d => d
|}.

(** A second identity, listed nowhere. *)
Definition bob : VerificationMethod.t :=
  VerificationMethod.mk "did:ex:bob#key-1" "did:ex:bob".

(** A delegated capability whose first chain entry is not a string. *)
Definition capBadChain : Capability.t StubBody :=
  stubCapability "urn:cap:4" "urn:cap:1" ["read"] [IOther "map[id:urn:cap:1]"]
    ["did:ex:alice"].

(** A root capability that lists no invoker. *)
Definition capNoInvoker : Capability.t StubBody :=
  stubCapability "urn:cap:5" "urn:cap:5" [] [] [].

(** [cap1] with its invokers listed twice and in another order. *)
Definition cap1Shuffled : Capability.t StubBody :=
  stubCapability "urn:cap:1" "urn:cap:1" ["read"] []
    ["did:ex:carol"; "did:ex:alice"; "did:ex:carol"].

Definition cap1Carol : Capability.t StubBody :=
  stubCapability "urn:cap:1" "urn:cap:1" ["read"] [] ["did:ex:alice"; "did:ex:carol"].

(** [capB] as another resolver could return it: same ID, another target. *)
Definition capB' : Capability.t StubBody :=
  stubCapability "urn:cap:B" "urn:edv:other" ["read"] [] [].

(** Accessors that cannot read the chain of a document. *)
Definition brokenChainMethods : CapabilityMethods StubBody string := {|
  validateCapabilityChain := fun _ => None;
  capabilityChain := fun c => (fst (Capability.rest c),
                               Some (errors_New "capabilityChain is not an array"));
  invokers := fun c => (snd (Capability.rest c), None);
  fmt_v := fun d => d
|}.

(** Accessors that cannot read the invokers of a document. *)
Definition brokenInvokersMethods : CapabilityMethods StubBody string := {|
  validateCapabilityChain := fun _ => None;
  capabilityChain := fun c => (fst (Capability.rest c), None);
  invokers := fun c => (snd (Capability.rest c), Some (errors_New "no invoker"));
  fmt_v := fun d => d
|}.

(** [cap2] under another ID and with another invocation target. *)
Definition cap2Moved : Capability.t StubBody :=
  stubCapability "urn:cap:2b" "urn:edv:elsewhere" ["read"] [IString "urn:cap:1"]
    ["did:ex:alice"].

(** A verifier whose resolver answers every URI with no root and no error. *)
Definition nilRootVerifier : option (Verifier StubBody) :=
  Some {| zcaps := Some {| Resolve := fun _ => (None, None) |} |}.

(** The verifier [NewVerifier] builds over a nil resolver. *)
Definition noResolverVerifier : option (Verifier StubBody) :=
  fst (NewVerifier None).

(** Steps 1-4 pass on a concrete input. *)
Ltac reaches_resolver :=
  split; [reflexivity | reflexivity | reflexivity
         | eexists; split; [reflexivity | constructor]].

(** * Properties *)

Section Facts.

Context {Body Dyn : Type} {methods : CapabilityMethods Body Dyn}.

Lemma stringsContain_In (strs : list string) (s : string) :
  stringsContain strs s = true <-> In s strs.
Proof.
  induction strs as [|x strs IH]; simpl.
  - split; [discriminate | tauto].
  - destruct (String.eqb_spec s x) as [->|Hne].
    + split; auto.
    + rewrite IH. split; [auto | intros [Heq|Hin]; [congruence | exact Hin]].
Qed.

Lemma stringsContain_false (strs : list string) (s : string) :
  stringsContain strs s = false <-> ~ In s strs.
Proof.
  rewrite <- stringsContain_In. destruct (stringsContain strs s); split;
    congruence || (intros H; exfalso; apply H; reflexivity) || auto.
Qed.

Lemma len_gt0_false {A : Type} (l : list A) :
  (0 <? List.length l)%nat = false <-> l = [].
Proof. destruct l; unfold Nat.ltb; simpl; split; congruence. Qed.

Lemma len_gt0_true {A : Type} (l : list A) :
  (0 <? List.length l)%nat = true <-> l <> [].
Proof. destruct l; unfold Nat.ltb; simpl; split; congruence. Qed.

Lemma actionNotAllowed_true (allowed : list string) (a : string) :
  actionNotAllowed allowed a = true <-> allowed <> [] /\ a <> EmptyString /\ ~ In a allowed.
Proof.
  unfold actionNotAllowed. rewrite !andb_true_iff, !negb_true_iff.
  rewrite len_gt0_true, String.eqb_neq, stringsContain_false. tauto.
Qed.

Lemma actionNotAllowed_false (allowed : list string) (a : string) :
  actionNotAllowed allowed a = false <-> allowed = [] \/ a = EmptyString \/ In a allowed.
Proof.
  unfold actionNotAllowed. rewrite !andb_false_iff, !negb_false_iff.
  rewrite len_gt0_false, String.eqb_eq, stringsContain_In. tauto.
Qed.

Lemma bind_ret {A B : Type} (a : A) (f : A -> Run B) : bind (ret a) f = f a.
Proof. unfold bind, ret. destruct (f a). reflexivity. Qed.

Lemma bind_returns {A B : Type} (cs : list string) (a : A) (f : A -> Run B) :
  bind (cs, Returns a) f = (cs ++ calls (f a), result (f a)).
Proof. unfold bind. destruct (f a). reflexivity. Qed.

Lemma resolve_zcapsResolve (v : option (Verifier Body)) (uri : string) :
  resolve v uri
  = match zcapsResolve v uri with
    | Some answer => ([uri], Returns answer)
    | None => ([], Panics)
    end.
Proof. destruct v as [[[r|]]|]; reflexivity. Qed.

Lemma verifyCapabilityChain_from_resolver (v : option (Verifier Body))
    (c : Capability.t Body) (action : string) (inv : CapabilityInvocation.t)
    (isRoot : bool) (uri : string) (rest : list (untyped Dyn)) :
  reachesResolver c action inv isRoot uri rest ->
  verifyCapabilityChain v (Some c) action (Some inv)
  = fromResolver v inv isRoot uri rest.
Proof.
  intros [Hs He Hv (chain & Hc & Hr)].
  unfold verifyCapabilityChain. cbn [deref bind ret].
  rewrite Hs. cbn [deref bind ret].
  rewrite He, String.eqb_refl. cbn [negb].
  rewrite Hv, Hc.
  unfold fromResolver, afterResolve, rootChecks.
  destruct Hr; rewrite resolve_zcapsResolve;
    destruct (zcapsResolve v _) as [[[root|] [err|]]|]; try reflexivity;
    cbn [bind ret deref andThen];
    destruct (String.eqb (CapabilityInvocation.ExpectedTarget inv) EmptyString);
    cbn [bind ret deref andThen negb andb app];
    repeat match goal with
    | |- context [String.eqb ?a ?b] =>
        destruct (String.eqb a b); cbn [bind ret deref andThen negb andb app]
    | |- context [(0 <? ?n)%nat] =>
        destruct (0 <? n)%nat; cbn [bind ret deref andThen negb andb app]
    end; reflexivity.
Qed.

Lemma verifyCapabilityChain_at_resolver (v : option (Verifier Body))
    (c : Capability.t Body) (action : string) (inv : CapabilityInvocation.t)
    (isRoot : bool) (uri : string) (rest : list (untyped Dyn))
    (answer : option (Capability.t Body) * option error) :
  reachesResolver c action inv isRoot uri rest ->
  zcapsResolve v uri = Some answer ->
  verifyCapabilityChain v (Some c) action (Some inv)
  = ([uri], afterResolve inv isRoot uri rest answer).
Proof.
  intros Hr Ha. rewrite (verifyCapabilityChain_from_resolver v Hr).
  unfold fromResolver. rewrite Ha. reflexivity.
Qed.

Lemma verifyCapabilityChain_no_resolver (v : option (Verifier Body))
    (c : Capability.t Body) (action : string) (inv : CapabilityInvocation.t)
    (isRoot : bool) (uri : string) (rest : list (untyped Dyn)) :
  reachesResolver c action inv isRoot uri rest ->
  zcapsResolve v uri = None ->
  verifyCapabilityChain v (Some c) action (Some inv) = ([], Panics).
Proof.
  intros Hr Ha. rewrite (verifyCapabilityChain_from_resolver v Hr).
  unfold fromResolver. rewrite Ha. reflexivity.
Qed.

Ltac stops_early tac :=
  left; eexists; split;
  [ intros v; unfold verifyCapabilityChain; cbn [deref bind ret];
    tac; reflexivity
  | split; [discriminate | intros H; first [discriminate H | reflexivity]] ].

(** Either the chain verification stops before the resolver, with an
    error (or, on a nil invocation, a panic) that does not depend on the
    resolver, or steps 1-4 pass. *)
Lemma verifyCapabilityChain_cases (c : Capability.t Body)
    (action : string) (invocation : option CapabilityInvocation.t) :
  (exists r, (forall v, verifyCapabilityChain v (Some c) action invocation = ([], r))
             /\ r <> Returns None /\ (r = Panics -> invocation = None))
  \/ (exists inv isRoot uri rest,
        invocation = Some inv /\ reachesResolver c action inv isRoot uri rest).
Proof.
  destruct (actionNotAllowed (Capability.AllowedAction c) action) eqn:Hs.
  { stops_early ltac:(rewrite Hs). }
  destruct invocation as [inv|].
  2:{ stops_early ltac:(rewrite Hs). }
  destruct (String.eqb (CapabilityInvocation.ExpectedAction inv) action) eqn:He.
  2:{ stops_early ltac:(rewrite Hs; cbn [deref bind ret]; rewrite He). }
  destruct (validateCapabilityChain c) as [err|] eqn:Hv.
  { stops_early ltac:(rewrite Hs; cbn [deref bind ret]; rewrite He, Hv). }
  destruct (capabilityChain c) as [chain [err|]] eqn:Hc.
  { stops_early ltac:(rewrite Hs; cbn [deref bind ret]; rewrite He, Hv, Hc). }
  pose proof (proj1 (String.eqb_eq _ _) He) as He'.
  destruct chain as [|[uri|d] rest].
  - right. exists inv, true, (Capability.ID c), [].
    split; [reflexivity|]. split; auto. exists []. split; [auto | constructor].
  - right. exists inv, false, uri, rest.
    split; [reflexivity|]. split; auto. eexists. split; [eauto | constructor].
  - stops_early ltac:(rewrite Hs; cbn [deref bind ret]; rewrite He, Hv, Hc).
Qed.

Lemma isInvoker_invokerCheck (c : Capability.t Body)
    (verificationMethod : option VerificationMethod.t) :
  (r <- isInvoker (Some c) verificationMethod ;;
   let (isInvoker, err) := r in
   match err with
   | Some err => ret (Some (Errorf_w "isInvoke: " err))
   | None => if negb isInvoker then ret (Some errNotInvoker) else ret None
   end)
  = ([], invokerCheck c verificationMethod).
Proof.
  unfold isInvoker, invokerCheck. cbn [deref bind ret].
  destruct (invokers c) as [l [err|]]; [reflexivity|].
  destruct verificationMethod as [vm|]; [|reflexivity].
  cbn [deref bind ret].
  destruct (0 <? List.length l)%nat; cbn [bind ret andb]; [|reflexivity].
  destruct (stringsContain l (VerificationMethod.ID vm)
            || (negb (String.eqb (VerificationMethod.Controller vm) EmptyString)
                && stringsContain l (VerificationMethod.Controller vm)));
    reflexivity.
Qed.

Lemma Verify_at_resolver (v : option (Verifier Body)) (p : Proof_.t Body)
    (c : Capability.t Body) (inv : CapabilityInvocation.t) (isRoot : bool)
    (uri : string) (rest : list (untyped Dyn))
    (answer : option (Capability.t Body) * option error) :
  Proof_.Capability p = Some c ->
  reachesResolver c (Proof_.CapabilityAction p) inv isRoot uri rest ->
  zcapsResolve v uri = Some answer ->
  Verify v (Some p) (Some inv)
  = ([uri], afterChain c inv (afterResolve inv isRoot uri rest answer)).
Proof.
  intros Hp Hr Ha. unfold Verify. cbn [deref]. rewrite bind_ret, Hp.
  rewrite (verifyCapabilityChain_at_resolver v Hr Ha).
  unfold afterChain.
  destruct (afterResolve inv isRoot uri rest answer) as [[err|]|];
    try reflexivity.
  rewrite bind_returns. cbn [deref]. rewrite bind_ret, isInvoker_invokerCheck.
  reflexivity.
Qed.

Lemma Verify_no_resolver (v : option (Verifier Body)) (p : Proof_.t Body)
    (c : Capability.t Body) (inv : CapabilityInvocation.t) (isRoot : bool)
    (uri : string) (rest : list (untyped Dyn)) :
  Proof_.Capability p = Some c ->
  reachesResolver c (Proof_.CapabilityAction p) inv isRoot uri rest ->
  zcapsResolve v uri = None ->
  Verify v (Some p) (Some inv) = ([], Panics).
Proof.
  intros Hp Hr Ha. unfold Verify. cbn [deref]. rewrite bind_ret, Hp.
  rewrite (verifyCapabilityChain_no_resolver v Hr Ha). reflexivity.
Qed.

Lemma Verify_before_resolver (v : option (Verifier Body)) (p : Proof_.t Body)
    (c : Capability.t Body) (invocation : option CapabilityInvocation.t)
    (r : outcome (option error)) :
  Proof_.Capability p = Some c ->
  verifyCapabilityChain v (Some c) (Proof_.CapabilityAction p) invocation = ([], r) ->
  r <> Returns None ->
  Verify v (Some p) invocation
  = ([], match r with
         | Returns (Some err) => Returns (Some (Errorf_w "invalid capability chain: " err))
         | _ => Panics
         end).
Proof.
  intros Hp Hc Hr. unfold Verify. cbn [deref]. rewrite bind_ret, Hp, Hc.
  destruct r as [[err|]|]; try reflexivity. congruence.
Qed.

(** Either [Verify] ends before any resolver call, with an error (or, on
    a nil proof or invocation, a panic) that does not depend on the
    resolver, or the chain verification reaches the resolver. *)
Lemma Verify_cases (proof : option (Proof_.t Body))
    (invocation : option CapabilityInvocation.t) :
  (exists r, (forall v, Verify v proof invocation = ([], r)) /\ r <> Returns None
             /\ (r = Panics -> proof = None \/ invocation = None))
  \/ (exists p c inv isRoot uri rest,
        proof = Some p /\ Proof_.Capability p = Some c /\ invocation = Some inv
        /\ reachesResolver c (Proof_.CapabilityAction p) inv isRoot uri rest).
Proof.
  destruct proof as [p|].
  2:{ left. exists Panics. split; [reflexivity | split; [discriminate | auto]]. }
  destruct (Proof_.Capability p) as [c|] eqn:Hp.
  2:{ left. exists (Returns (Some errMissingCapability)).
      split; [|split; discriminate].
      intros v. unfold Verify. cbn [deref]. rewrite bind_ret, Hp. reflexivity. }
  destruct (verifyCapabilityChain_cases c (Proof_.CapabilityAction p) invocation)
    as [(r & Hr & Hne & Hpanic) | (inv & isRoot & uri & rest & -> & Hreach)].
  - left. eexists. split.
    + intros v. exact (Verify_before_resolver v p invocation Hp (Hr v) Hne).
    + destruct r as [[err|]|];
        [ split; [discriminate | intros H; discriminate H]
        | congruence
        | split; [discriminate | intros _; right; exact (Hpanic eq_refl)] ].
  - right. exists p, c, inv, isRoot, uri, rest. auto.
Qed.

(** C8: a proof without a capability is refused at once with the
    missing-capability error, whatever the invocation is (nil included),
    and the resolver is never called. *)
Theorem Verify_missing_capability (v : option (Verifier Body)) (action vm : string)
    (invocation : option CapabilityInvocation.t) :
  Verify v (Some (Proof_.mk None action vm)) invocation
  = ([], Returns (Some (errorString
       (dq ++ "capability" ++ dq ++ " was not found in the capability invocation proof")))).
Proof. reflexivity. Qed.

(** C1 (amended): when the capability restricts actions and a non-empty
    intended action is not among them, [Verify] returns the
    action-not-allowed error naming the allowed set, whatever the other
    inputs are (a nil invocation included). *)
Theorem Verify_action_not_allowed (v : option (Verifier Body)) (c : Capability.t Body)
    (action vm : string) (invocation : option CapabilityInvocation.t) :
  Capability.AllowedAction c <> [] ->
  action <> EmptyString ->
  ~ In action (Capability.AllowedAction c) ->
  Verify v (Some (Proof_.mk (Some c) action vm)) invocation
  = ([], Returns (Some (Errorf_w "invalid capability chain: "
                          (errActionNotAllowed action (Capability.AllowedAction c))))).
Proof.
  intros Hne Ha Hin.
  assert (Hna : actionNotAllowed (Capability.AllowedAction c) action = true)
    by (apply actionNotAllowed_true; auto).
  unfold Verify, verifyCapabilityChain. cbn [deref bind ret Proof_.Capability
    Proof_.CapabilityAction]. rewrite Hna. reflexivity.
Qed.

(** C2 (amended): when the intended action passes the action scoping
    (no restriction, no intended action, or a listed one) and differs from
    the invocation's expected action, [Verify] returns the action-mismatch
    error quoting both values. *)
Theorem Verify_action_mismatch (v : option (Verifier Body)) (c : Capability.t Body)
    (action vm : string) (inv : CapabilityInvocation.t) :
  Capability.AllowedAction c = [] \/ action = EmptyString
    \/ In action (Capability.AllowedAction c) ->
  CapabilityInvocation.ExpectedAction inv <> action ->
  Verify v (Some (Proof_.mk (Some c) action vm)) (Some inv)
  = ([], Returns (Some (Errorf_w "invalid capability chain: "
                          (errActionMismatch action
                             (CapabilityInvocation.ExpectedAction inv))))).
Proof.
  intros Hok Hne.
  apply actionNotAllowed_false in Hok. apply String.eqb_neq in Hne.
  unfold Verify, verifyCapabilityChain. cbn [deref bind ret Proof_.Capability
    Proof_.CapabilityAction]. rewrite Hok. cbn [deref bind ret].
  rewrite Hne. reflexivity.
Qed.

(** C5: with the invoker list [l] of the capability, [isInvoker] answers
    true exactly when [l] is non-empty and holds the method's ID, or the
    method's non-empty controller; an empty list authorizes nobody and a
    listed controller authorizes a method whose own ID is not listed. *)
Theorem isInvoker_authorizes (c : Capability.t Body) (vm : VerificationMethod.t)
    (l : list string) :
  invokers c = (l, None) ->
  exists b : bool,
    isInvoker (Some c) (Some vm) = ([], Returns (b, None))
    /\ (b = true <->
          l <> [] /\ (In (VerificationMethod.ID vm) l
                      \/ (VerificationMethod.Controller vm <> EmptyString
                          /\ In (VerificationMethod.Controller vm) l)))
    /\ (l = [] -> b = false)
    /\ (~ In (VerificationMethod.ID vm) l ->
        VerificationMethod.Controller vm <> EmptyString ->
        In (VerificationMethod.Controller vm) l -> b = true).
Proof.
  intros Hl. unfold isInvoker. cbn [deref bind ret]. rewrite Hl.
  cbn [deref bind ret].
  destruct l as [|x l].
  - exists false. cbn. repeat split; try congruence; try tauto.
  - set (l' := x :: l).
    exists (stringsContain l' (VerificationMethod.ID vm)
            || (negb (String.eqb (VerificationMethod.Controller vm) EmptyString)
                && stringsContain l' (VerificationMethod.Controller vm))).
    assert (Hiff :
      stringsContain l' (VerificationMethod.ID vm)
      || (negb (String.eqb (VerificationMethod.Controller vm) EmptyString)
          && stringsContain l' (VerificationMethod.Controller vm)) = true
      <-> l' <> [] /\ (In (VerificationMethod.ID vm) l'
                       \/ (VerificationMethod.Controller vm <> EmptyString
                           /\ In (VerificationMethod.Controller vm) l'))).
    { rewrite orb_true_iff, andb_true_iff, negb_true_iff, String.eqb_neq,
        !stringsContain_In.
      split; [intros H; split; [subst l'; discriminate | exact H] | tauto]. }
    split; [reflexivity|]. split; [exact Hiff|]. split.
    + subst l'. discriminate.
    + intros _ Hc Hin. apply Hiff. split; [subst l'; discriminate | auto].
Qed.

Ltac eqb_cases :=
  repeat match goal with
  | |- context [String.eqb ?a ?b] => destruct (String.eqb_spec a b)
  end; cbn [negb andb].


Lemma rootChecks_view (inv : CapabilityInvocation.t) (isRoot : bool)
    (rest : list (untyped Dyn)) (root root' : Capability.t Body) :
  Capability.ID root = Capability.ID root' ->
  InvocationTarget.ID (Capability.InvocationTarget root)
  = InvocationTarget.ID (Capability.InvocationTarget root') ->
  rootChecks inv isRoot rest root = rootChecks inv isRoot rest root'.
Proof. intros Hid Ht. unfold rootChecks. rewrite Hid, Ht. reflexivity. Qed.

(** C4 (amended): once the root is resolved, an expected root capability
    that is set and differs from the root's ID makes [Verify] fail: with
    the root-mismatch error naming both when the expected target is unset
    or is the root's target, with the target-mismatch error otherwise.
    With no expected root capability, a root whose invocation target is
    not its own ID makes [Verify] fail.  With the expected root capability
    set and equal to the root's ID, the chain verification succeeds
    whatever the root's invocation target is. *)
Theorem Verify_root_identity (v : option (Verifier Body)) (p : Proof_.t Body)
    (c : Capability.t Body) (inv : CapabilityInvocation.t) (isRoot : bool)
    (uri : string) (rest : list (untyped Dyn)) (root : Capability.t Body) :
  Proof_.Capability p = Some c ->
  reachesResolver c (Proof_.CapabilityAction p) inv isRoot uri rest ->
  zcapsResolve v uri = Some (Some root, None) ->
  let expectedRoot := CapabilityInvocation.ExpectedRootCapability inv in
  let expectedTarget := CapabilityInvocation.ExpectedTarget inv in
  let target := InvocationTarget.ID (Capability.InvocationTarget root) in
  (expectedRoot <> EmptyString -> expectedRoot <> Capability.ID root ->
     (exists err, Verify v (Some p) (Some inv) = ([uri], Returns (Some err)))
     /\ (expectedTarget = EmptyString \/ expectedTarget = target ->
         Verify v (Some p) (Some inv)
         = ([uri], Returns (Some (Errorf_w "invalid capability chain: "
              (errorString
                 ("expected root capability does not match actual root capability: expected=("
                  ++ expectedRoot ++ ") actual=(" ++ Capability.ID root ++ ")"))))))
     /\ (expectedTarget <> EmptyString -> expectedTarget <> target ->
         Verify v (Some p) (Some inv)
         = ([uri], Returns (Some (Errorf_w "invalid capability chain: "
              (errorString
                 ("expected target does not match root capability target: expected="
                  ++ dq ++ expectedTarget ++ dq ++ " target=" ++ dq ++ target ++ dq)))))))
  /\ (expectedRoot = EmptyString -> target <> Capability.ID root ->
       (exists err, Verify v (Some p) (Some inv) = ([uri], Returns (Some err)))
       /\ (expectedTarget = EmptyString \/ expectedTarget = target ->
           Verify v (Some p) (Some inv)
           = ([uri], Returns (Some (Errorf_w "invalid capability chain: "
                (errorString
                   "the root capability must not specify a different invocation target"))))))
  /\ (expectedRoot <> EmptyString -> expectedRoot = Capability.ID root ->
       expectedTarget = EmptyString \/ expectedTarget = target ->
       isRoot = true \/ rest = [] ->
       verifyCapabilityChain v (Some c) (Proof_.CapabilityAction p) (Some inv)
       = ([uri], Returns None)
       /\ (isInvoker (Some c) (CapabilityInvocation.VerificationMethod inv)
           = ([], Returns (true, None)) ->
           Verify v (Some p) (Some inv) = ([uri], Returns None))).
Proof.
  intros Hp Hr Hres expectedRoot expectedTarget target.
  rewrite (Verify_at_resolver v p Hp Hr Hres),
    (verifyCapabilityChain_at_resolver v Hr Hres).
  unfold afterResolve, afterChain, rootChecks.
  fold expectedRoot expectedTarget target.
  split; [|split].
  - intros Hset Hne. split; [|split].
    + eqb_cases; try congruence; eexists; reflexivity.
    + intros Ht. eqb_cases; try congruence; try tauto; reflexivity.
    + intros Htset Htne. eqb_cases; try congruence; reflexivity.
  - intros Hunset Hne. split.
    + eqb_cases; try congruence; eexists; reflexivity.
    + intros Ht. eqb_cases; try congruence; try tauto; reflexivity.
  - intros Hset Heq Ht Hlast.
    assert (Hend : (if isRoot then @None error
                    else if (0 <? List.length rest)%nat then Some errMultipleChains
                         else None) = None).
    { destruct Hlast as [->| ->]; [reflexivity | destruct isRoot; reflexivity]. }
    assert (Hcheck : isInvoker (Some c) (CapabilityInvocation.VerificationMethod inv)
                     = ([], Returns (true, None)) ->
                     invokerCheck c (CapabilityInvocation.VerificationMethod inv)
                     = Returns None).
    { intros Hi.
      pose proof (isInvoker_invokerCheck c
                    (CapabilityInvocation.VerificationMethod inv)) as Hc.
      rewrite Hi in Hc. cbn in Hc. congruence. }
    eqb_cases; try congruence; try tauto; rewrite Hend;
      (split; [reflexivity | intros Hi; rewrite (Hcheck Hi); reflexivity]).
Qed.

(** C6: a capability whose chain still has entries after the root URI is
    never accepted, and when every step up to the root identity check
    passes the error is the multiple-chains one, whatever the invoker
    check would say. *)
Theorem Verify_deep_chain (v : option (Verifier Body)) (p : Proof_.t Body)
    (c : Capability.t Body) (first next : untyped Dyn) (rest : list (untyped Dyn)) :
  Proof_.Capability p = Some c ->
  capabilityChain c = (first :: next :: rest, None) ->
  (forall invocation, result (Verify v (Some p) invocation) <> Returns None)
  /\ (forall inv uri root,
        first = IString uri ->
        actionNotAllowed (Capability.AllowedAction c) (Proof_.CapabilityAction p) = false ->
        CapabilityInvocation.ExpectedAction inv = Proof_.CapabilityAction p ->
        validateCapabilityChain c = None ->
        zcapsResolve v uri = Some (Some root, None) ->
        CapabilityInvocation.ExpectedTarget inv = EmptyString
          \/ CapabilityInvocation.ExpectedTarget inv
             = InvocationTarget.ID (Capability.InvocationTarget root) ->
        (CapabilityInvocation.ExpectedRootCapability inv <> EmptyString
           /\ CapabilityInvocation.ExpectedRootCapability inv = Capability.ID root)
          \/ (CapabilityInvocation.ExpectedRootCapability inv = EmptyString
              /\ InvocationTarget.ID (Capability.InvocationTarget root)
                 = Capability.ID root) ->
        Verify v (Some p) (Some inv)
        = ([uri], Returns (Some (Errorf_w "invalid capability chain: "
             (errorString "multiple capabilityChains not supported yet"))))).
Proof.
  intros Hp Hc. split.
  - intros invocation.
    destruct (Verify_cases (Some p) invocation)
      as [(r & Hr & Hne & _) | (p' & c' & inv & isRoot & uri & rest' & Hp' & Hc' & -> & Hr)].
    + rewrite Hr. exact Hne.
    + injection Hp' as <-. rewrite Hp in Hc'. injection Hc' as <-.
      destruct (zcapsResolve v uri) as [answer|] eqn:Ha.
      2:{ rewrite (Verify_no_resolver v p Hp Hr Ha). discriminate. }
      rewrite (Verify_at_resolver v p Hp Hr Ha). cbn [result snd].
      destruct Hr as [_ _ _ (chain & Hchain & Hroot)].
      rewrite Hc in Hchain. injection Hchain as <-.
      inversion Hroot; subst.
      destruct answer as [[root|] [err|]];
        unfold afterResolve, afterChain; try discriminate.
      unfold rootChecks. change (0 <? List.length (next :: rest))%nat with true.
      repeat match goal with
      | |- context [if ?b then _ else _] => destruct b
      end; discriminate.
  - intros inv uri root -> Hs He Hv Hres Ht Hid.
    assert (Hr : reachesResolver c (Proof_.CapabilityAction p) inv false uri
                   (next :: rest)).
    { split; auto. eexists. split; [exact Hc | constructor]. }
    rewrite (Verify_at_resolver v p Hp Hr Hres).
    unfold afterResolve, afterChain, rootChecks.
    change (0 <? List.length (next :: rest))%nat with true.
    eqb_cases; try congruence; try tauto; reflexivity.
Qed.

(** C7 (amended): a root capability (empty chain) that targets itself and
    lists the verification method is accepted when, in addition, the
    intended action passes the scoping and equals the expected action,
    the chain is structurally valid, the resolver returns the capability
    for its own ID, and the expected target and expected root capability
    are each unset or equal to that ID. *)
Theorem Verify_root_self_reference (v : option (Verifier Body)) (p : Proof_.t Body)
    (c : Capability.t Body) (inv : CapabilityInvocation.t)
    (vm : VerificationMethod.t) (l : list string) :
  Proof_.Capability p = Some c ->
  capabilityChain c = ([], None) ->
  InvocationTarget.ID (Capability.InvocationTarget c) = Capability.ID c ->
  invokers c = (l, None) ->
  CapabilityInvocation.VerificationMethod inv = Some vm ->
  In (VerificationMethod.ID vm) l ->
  (Capability.AllowedAction c = [] \/ Proof_.CapabilityAction p = EmptyString
   \/ In (Proof_.CapabilityAction p) (Capability.AllowedAction c)) ->
  CapabilityInvocation.ExpectedAction inv = Proof_.CapabilityAction p ->
  validateCapabilityChain c = None ->
  zcapsResolve v (Capability.ID c) = Some (Some c, None) ->
  (CapabilityInvocation.ExpectedTarget inv = EmptyString
   \/ CapabilityInvocation.ExpectedTarget inv = Capability.ID c) ->
  (CapabilityInvocation.ExpectedRootCapability inv = EmptyString
   \/ CapabilityInvocation.ExpectedRootCapability inv = Capability.ID c) ->
  Verify v (Some p) (Some inv) = ([Capability.ID c], Returns None).
Proof.
  intros Hp Hc Hself Hl Hvm Hin Hs He Hv Hres Ht Hroot.
  apply actionNotAllowed_false in Hs.
  assert (Hr : reachesResolver c (Proof_.CapabilityAction p) inv true
                 (Capability.ID c) []).
  { split; auto. exists []. split; [exact Hc | constructor]. }
  rewrite (Verify_at_resolver v p Hp Hr Hres).
  unfold afterResolve, afterChain.
  assert (Hchk : rootChecks inv true (@nil (untyped Dyn)) c = None).
  { unfold rootChecks. rewrite Hself.
    eqb_cases; try congruence; try tauto. }
  rewrite Hchk. unfold invokerCheck. rewrite Hl, Hvm.
  apply stringsContain_In in Hin. rewrite Hin.
  destruct l as [|x l]; [discriminate|]. reflexivity.
Qed.

Lemma afterResolve_view (inv : CapabilityInvocation.t) (isRoot : bool) (uri : string)
    (rest : list (untyped Dyn)) (r r' : option (Capability.t Body) * option error) :
  rootView r = rootView r' ->
  afterResolve inv isRoot uri rest r = afterResolve inv isRoot uri rest r'.
Proof.
  destruct r as [root err], r' as [root' err']. unfold rootView. cbn [fst snd].
  intros H. injection H as Hroot <-.
  destruct root as [root|], root' as [root'|]; cbn in Hroot; try discriminate;
    destruct err as [err|]; cbn [afterResolve]; try reflexivity.
  injection Hroot as Hid Ht. f_equal. apply rootChecks_view; assumption.
Qed.

(** C9: two verifiers whose resolvers agree, URI by URI, on the error,
    on whether a root is returned, and on the root's ID and target ID give
    the same run of [Verify], however the returned roots differ elsewhere
    (allowed actions, invokers, the rest of the document); two verifiers
    without a resolver agree as well.  And once the chain verification
    passes, the verdict is the one of [isInvoker] on the capability of the
    proof. *)
Theorem Verify_ignores_root_fields (v1 v2 : option (Verifier Body))
    (proof : option (Proof_.t Body)) (invocation : option CapabilityInvocation.t) :
  (forall uri,
      option_map rootView (zcapsResolve v1 uri)
      = option_map rootView (zcapsResolve v2 uri)) ->
  Verify v1 proof invocation = Verify v2 proof invocation
  /\ (forall p c inv,
        proof = Some p -> Proof_.Capability p = Some c -> invocation = Some inv ->
        result (verifyCapabilityChain v1 (Some c) (Proof_.CapabilityAction p) (Some inv))
        = Returns None ->
        result (Verify v1 proof invocation)
        = match result (isInvoker (Some c) (CapabilityInvocation.VerificationMethod inv)) with
          | Returns (_, Some err) => Returns (Some (Errorf_w "isInvoke: " err))
          | Returns (true, None) => Returns None
          | Returns (false, None) => Returns (Some errNotInvoker)
          | Panics => Panics
          end).
Proof.
  intros Hview. split.
  - destruct (Verify_cases proof invocation)
      as [(r & Hr & _) | (p & c & inv & isRoot & uri & rest & -> & Hp & -> & Hr)].
    + rewrite !Hr. reflexivity.
    + specialize (Hview uri).
      destruct (zcapsResolve v1 uri) as [a1|] eqn:H1,
               (zcapsResolve v2 uri) as [a2|] eqn:H2; try discriminate Hview.
      * cbn [option_map] in Hview.
        assert (Hsame : rootView a1 = rootView a2) by congruence.
        rewrite (Verify_at_resolver v1 p Hp Hr H1), (Verify_at_resolver v2 p Hp Hr H2).
        rewrite (afterResolve_view inv isRoot uri rest Hsame). reflexivity.
      * rewrite (Verify_no_resolver v1 p Hp Hr H1), (Verify_no_resolver v2 p Hp Hr H2).
        reflexivity.
  - intros p c inv -> Hp -> Hok.
    unfold Verify. cbn [deref]. rewrite bind_ret, Hp.
    destruct (verifyCapabilityChain v1 (Some c) (Proof_.CapabilityAction p) (Some inv))
      as [cs r]. cbn [result snd] in Hok. subst r.
    rewrite bind_returns. cbn [result snd deref]. rewrite bind_ret.
    destruct (isInvoker (Some c) (CapabilityInvocation.VerificationMethod inv))
      as [cs' [[b [err|]]|]]; try reflexivity; destruct b; reflexivity.
Qed.

(** C10 (amended): only the capability of the proof is guarded against
    nil: without it [Verify] returns an error and does not panic.  The
    other pointers are dereferenced without a guard: a nil proof always
    panics; a nil invocation panics once the capability is there and the
    action scoping passes; a nil verifier or a nil resolver panics once
    steps 1-4 of the chain verification pass; a nil verification method
    panics once the chain verification passes and the invoker list is
    fetched.  With a proof, an invocation, a verification method, a
    verifier that holds a resolver, and no nil root returned without an
    error, no call of [verifyCapabilityChain], [isInvoker] or [Verify]
    panics. *)
Theorem Verify_nil_safety (v : option (Verifier Body)) :
  (forall invocation, Verify v None invocation = ([], Panics))
  /\ (forall action vm invocation,
        result (Verify v (Some (Proof_.mk None action vm)) invocation) <> Panics)
  /\ (forall p c,
        Proof_.Capability p = Some c ->
        actionNotAllowed (Capability.AllowedAction c) (Proof_.CapabilityAction p) = false ->
        Verify v (Some p) None = ([], Panics))
  /\ (forall p c,
        Proof_.Capability p = Some c ->
        actionNotAllowed (Capability.AllowedAction c) (Proof_.CapabilityAction p) = true ->
        result (Verify v (Some p) None) <> Panics)
  /\ (forall p c inv isRoot uri rest,
        Proof_.Capability p = Some c ->
        reachesResolver c (Proof_.CapabilityAction p) inv isRoot uri rest ->
        resolverOf v = None ->
        Verify v (Some p) (Some inv) = ([], Panics))
  /\ (forall p c inv cs l,
        Proof_.Capability p = Some c ->
        CapabilityInvocation.VerificationMethod inv = None ->
        verifyCapabilityChain v (Some c) (Proof_.CapabilityAction p) (Some inv)
        = (cs, Returns None) ->
        invokers c = (l, None) ->
        Verify v (Some p) (Some inv) = (cs, Panics))
  /\ (forall p inv vm r,
        CapabilityInvocation.VerificationMethod inv = Some vm ->
        resolverOf v = Some r ->
        (forall uri root, Resolve r uri = (root, None) -> root <> None) ->
        result (Verify v (Some p) (Some inv)) <> Panics
        /\ (forall c, Proof_.Capability p = Some c ->
              result (verifyCapabilityChain v (Some c) (Proof_.CapabilityAction p)
                        (Some inv)) <> Panics
              /\ result (isInvoker (Some c) (Some vm)) <> Panics)).
Proof.
  split; [reflexivity|]. split; [discriminate|]. split; [|split; [|split; [|split]]].
  - intros p c Hp Hs. unfold Verify. cbn [deref]. rewrite bind_ret, Hp.
    unfold verifyCapabilityChain. cbn [deref]. rewrite bind_ret, Hs. reflexivity.
  - intros p c Hp Hs. unfold Verify. cbn [deref]. rewrite bind_ret, Hp.
    unfold verifyCapabilityChain. cbn [deref]. rewrite bind_ret, Hs. discriminate.
  - intros p c inv isRoot uri rest Hp Hr Hnone.
    apply (Verify_no_resolver v p Hp Hr). unfold zcapsResolve. rewrite Hnone.
    reflexivity.
  - intros p c inv cs l Hp Hvm Hok Hl. unfold Verify. cbn [deref].
    rewrite bind_ret, Hp, Hok, bind_returns. cbn [deref]. rewrite bind_ret, Hvm.
    unfold isInvoker. cbn [deref]. rewrite bind_ret, Hl.
    cbn. rewrite !app_nil_r. reflexivity.
  - intros p inv vm r Hvm Hholds Hres.
    assert (Hanswer : forall uri, zcapsResolve v uri = Some (Resolve r uri)).
    { intros uri. unfold zcapsResolve. rewrite Hholds. reflexivity. }
    assert (Hafter : forall isRoot uri (rest : list (untyped Dyn)),
               afterResolve inv isRoot uri rest (Resolve r uri) <> Panics).
    { intros isRoot uri rest.
      destruct (Resolve r uri) as [[root|] [err|]] eqn:Hr;
        cbn; try discriminate.
      exfalso. exact (Hres uri None Hr eq_refl). }
    assert (Hinv : forall c, result (isInvoker (Some c) (Some vm)) <> Panics).
    { intros c. unfold isInvoker. cbn [deref]. rewrite bind_ret.
      destruct (invokers c) as [l [err|]]; [discriminate|].
      rewrite bind_ret. destruct (0 <? List.length l)%nat; discriminate. }
    split.
    + destruct (Verify_cases (Some p) (Some inv))
        as [(r0 & Hr & _ & Hpanic)
           | (p' & c & inv' & isRoot & uri & rest & Hp' & Hp & Hi & Hr)].
      * rewrite Hr. cbn. intros ->. destruct (Hpanic eq_refl); discriminate.
      * injection Hp' as <-. injection Hi as <-.
        rewrite (Verify_at_resolver v p Hp Hr (Hanswer uri)). cbn [result snd].
        specialize (Hafter isRoot uri rest).
        destruct (afterResolve inv isRoot uri rest (Resolve r uri))
          as [[err|]|]; cbn [afterChain]; try discriminate; try congruence.
        unfold invokerCheck. rewrite Hvm.
        destruct (invokers c) as [l [err|]]; [discriminate|].
        match goal with |- context [if ?b then _ else _] => destruct b end;
          discriminate.
    + intros c Hp. split; [|apply Hinv].
      destruct (verifyCapabilityChain_cases c (Proof_.CapabilityAction p) (Some inv))
        as [(r0 & Hr & _ & Hpanic) | (inv' & isRoot & uri & rest & Hi & Hr)].
      * rewrite Hr. cbn. intros ->. specialize (Hpanic eq_refl). discriminate.
      * injection Hi as <-.
        rewrite (verifyCapabilityChain_at_resolver v Hr (Hanswer uri)). apply Hafter.
Qed.

End Facts.

(** The scenarios of the specification, run on the stub resolver. *)

Example end_to_end_scenario :
  Verify (stubVerifier [cap1]) (Some (prove cap1 "read"))
    (Some (invokeBy (Some aliceDID) EmptyString "read" EmptyString))
  = (["urn:cap:1"], Returns None).
Proof. reflexivity. Qed.

Example root_mismatch_scenario :
  result (Verify (stubVerifier [capB]) (Some (prove capB "read"))
            (Some (invoke EmptyString "read" "urn:root:A")))
  = Returns (Some (Errorf_w "invalid capability chain: "
                     (errRootMismatch "urn:root:A" "urn:cap:B"))).
Proof. reflexivity. Qed.

Example invoker_via_controller_scenario :
  isInvoker (Some (stubCapability "urn:cap:1" "urn:cap:1" [] [] ["c1"]))
    (Some (VerificationMethod.mk "m1" "c1"))
  = ([], Returns (true, None)).
Proof. reflexivity. Qed.

Example delegated_scenario :
  Verify (stubVerifier [cap1]) (Some (prove cap2 "read"))
    (Some (invoke "urn:cap:1" "read" "urn:cap:1"))
  = (["urn:cap:1"], Returns None).
Proof. reflexivity. Qed.

(** C1 (counter-example): [cap1] only allows "read" and the intended
    action is the empty string, which is not in the list; the action
    scoping is skipped and the invocation is accepted. *)
Lemma Verify_empty_action_not_scoped :
  Capability.AllowedAction cap1 <> []
  /\ ~ In EmptyString (Capability.AllowedAction cap1)
  /\ Verify (stubVerifier [cap1]) (Some (prove cap1 EmptyString)) (Some (invoke EmptyString EmptyString EmptyString))
     = (["urn:cap:1"], Returns None)
  /\ Verify (stubVerifier [cap1]) (Some (prove cap1 EmptyString)) (Some (invoke EmptyString EmptyString EmptyString))
     <> ([], Returns (Some (Errorf_w "invalid capability chain: "
                             (errActionNotAllowed EmptyString (Capability.AllowedAction cap1))))).
Proof.
  split; [discriminate|]. split.
  - simpl. intros [H|[]]. discriminate.
  - split; [reflexivity | discriminate].
Qed.

Lemma Verify_action_not_allowed_witness :
  Verify (stubVerifier [cap1]) (Some (prove cap1 "write")) None
  = ([], Returns (Some (Errorf_w "invalid capability chain: "
                          (errActionNotAllowed "write" ["read"])))).
Proof.
  apply (Verify_action_not_allowed (stubVerifier [cap1]) cap1
           (action := "write") "did:ex:alice#key-1" None).
  - simpl. discriminate.
  - discriminate.
  - simpl. intros [H|[]]. discriminate.
Defined.

(** C2 (counter-example): the expected action "read" differs from the
    intended action "write", yet the error is the action-not-allowed one,
    because the allowed-action list is consulted first. *)
Lemma Verify_mismatch_masked_by_scoping :
  CapabilityInvocation.ExpectedAction (invoke EmptyString "read" EmptyString) <> "write"
  /\ Verify (stubVerifier [cap1]) (Some (prove cap1 "write")) (Some (invoke EmptyString "read" EmptyString))
     = ([], Returns (Some (Errorf_w "invalid capability chain: "
                             (errActionNotAllowed "write" ["read"]))))
  /\ Verify (stubVerifier [cap1]) (Some (prove cap1 "write")) (Some (invoke EmptyString "read" EmptyString))
     <> ([], Returns (Some (Errorf_w "invalid capability chain: "
                             (errActionMismatch "write" "read")))).
Proof.
  split; [discriminate|]. split; [reflexivity | discriminate].
Qed.

Lemma Verify_action_mismatch_witness :
  Verify (stubVerifier [cap1]) (Some (prove cap1 "read")) (Some (invoke EmptyString "write" EmptyString))
  = ([], Returns (Some (Errorf_w "invalid capability chain: "
                          (errActionMismatch "read" "write")))).
Proof.
  apply (Verify_action_mismatch (stubVerifier [cap1]) cap1 (action := "read")
           "did:ex:alice#key-1" (invoke EmptyString "write" EmptyString)).
  - right. right. simpl. left. reflexivity.
  - simpl. discriminate.
Defined.

Lemma isInvoker_authorizes_witness :
  exists b : bool,
    isInvoker (Some cap1) (Some alice) = ([], Returns (b, None))
    /\ (b = true <->
          ["did:ex:alice"] <> []
          /\ (In "did:ex:alice#key-1" ["did:ex:alice"]
              \/ ("did:ex:alice" <> EmptyString /\ In "did:ex:alice" ["did:ex:alice"])))
    /\ (["did:ex:alice"] = [] -> b = false)
    /\ (~ In "did:ex:alice#key-1" ["did:ex:alice"] ->
        "did:ex:alice" <> EmptyString -> In "did:ex:alice" ["did:ex:alice"] -> b = true).
Proof.
  apply (isInvoker_authorizes cap1 alice (l := ["did:ex:alice"])). reflexivity.
Defined.


(** C4 (counter-example): the root [cap1] is resolved and the expected
    root capability "urn:root:A" is set and is not its ID, yet the error is
    the target-mismatch one, because the expected target is checked
    first. *)
Lemma Verify_root_mismatch_masked_by_target :
  zcapsResolve (stubVerifier [cap1]) "urn:cap:1" = Some (Some cap1, None)
  /\ CapabilityInvocation.ExpectedRootCapability
       (invoke "urn:edv:vault" "read" "urn:root:A") <> EmptyString
  /\ CapabilityInvocation.ExpectedRootCapability
       (invoke "urn:edv:vault" "read" "urn:root:A") <> Capability.ID cap1
  /\ Verify (stubVerifier [cap1]) (Some (prove cap1 "read"))
       (Some (invoke "urn:edv:vault" "read" "urn:root:A"))
     = (["urn:cap:1"],
        Returns (Some (Errorf_w "invalid capability chain: "
                         (errTargetMismatch "urn:edv:vault" "urn:cap:1"))))
  /\ Verify (stubVerifier [cap1]) (Some (prove cap1 "read"))
       (Some (invoke "urn:edv:vault" "read" "urn:root:A"))
     <> (["urn:cap:1"],
         Returns (Some (Errorf_w "invalid capability chain: "
                          (errRootMismatch "urn:root:A" "urn:cap:1")))).
Proof.
  split; [reflexivity|]. split; [discriminate|]. split; [discriminate|].
  split; [reflexivity | discriminate].
Qed.

Lemma Verify_root_identity_witness :
  Verify (stubVerifier [cap1]) (Some (prove cap1 "read"))
    (Some (invoke EmptyString "read" "urn:root:A"))
  = (["urn:cap:1"],
     Returns (Some (Errorf_w "invalid capability chain: "
                      (errRootMismatch "urn:root:A" "urn:cap:1"))))
  /\ Verify (stubVerifier [capB]) (Some (prove capB "read")) (Some (invoke EmptyString "read" EmptyString))
     = (["urn:cap:B"],
        Returns (Some (Errorf_w "invalid capability chain: " errDifferentTarget)))
  /\ InvocationTarget.ID (Capability.InvocationTarget capB) <> Capability.ID capB
  /\ Verify (stubVerifier [capB]) (Some (prove capB "read"))
       (Some (invoke EmptyString "read" "urn:cap:B"))
     = (["urn:cap:B"], Returns None)
  /\ Verify (stubVerifier [cap1]) (Some (prove cap1 "read"))
       (Some (invoke "urn:edv:vault" "read" "urn:root:A"))
     = (["urn:cap:1"],
        Returns (Some (Errorf_w "invalid capability chain: "
                         (errTargetMismatch "urn:edv:vault" "urn:cap:1")))).
Proof.
  split; [|split; [|split; [|split]]].
  - refine (proj1 (proj2 (proj1 (Verify_root_identity (methods := stubMethods)
              (stubVerifier [cap1])
              (prove cap1 "read") (inv := invoke EmptyString "read" "urn:root:A")
              (isRoot := true) (uri := "urn:cap:1") (rest := []) (root := cap1)
              eq_refl _ eq_refl) _ _)) _).
    + reaches_resolver.
    + discriminate.
    + discriminate.
    + left. reflexivity.
  - refine (proj2 (proj1 (proj2 (Verify_root_identity (methods := stubMethods)
              (stubVerifier [capB])
              (prove capB "read") (inv := invoke EmptyString "read" EmptyString)
              (isRoot := true) (uri := "urn:cap:B") (rest := []) (root := capB)
              eq_refl _ eq_refl)) _ _) _).
    + reaches_resolver.
    + reflexivity.
    + discriminate.
    + left. reflexivity.
  - discriminate.
  - refine (proj2 (proj2 (proj2 (Verify_root_identity (methods := stubMethods)
              (stubVerifier [capB])
              (prove capB "read") (inv := invoke EmptyString "read" "urn:cap:B")
              (isRoot := true) (uri := "urn:cap:B") (rest := []) (root := capB)
              eq_refl _ eq_refl)) _ _ _ _) _).
    + reaches_resolver.
    + discriminate.
    + reflexivity.
    + left. reflexivity.
    + left. reflexivity.
    + reflexivity.
  - refine (proj2 (proj2 (proj1 (Verify_root_identity (methods := stubMethods)
              (stubVerifier [cap1])
              (prove cap1 "read") (inv := invoke "urn:edv:vault" "read" "urn:root:A")
              (isRoot := true) (uri := "urn:cap:1") (rest := []) (root := cap1)
              eq_refl _ eq_refl) _ _)) _ _).
    + reaches_resolver.
    + discriminate.
    + discriminate.
    + discriminate.
    + discriminate.
Defined.

Lemma Verify_deep_chain_witness :
  result (Verify (stubVerifier [cap1]) (Some (prove cap3 "read")) None) <> Returns None
  /\ Verify (stubVerifier [cap1]) (Some (prove cap3 "read"))
       (Some (invoke "urn:cap:1" "read" "urn:cap:1"))
     = (["urn:cap:1"],
        Returns (Some (Errorf_w "invalid capability chain: "
                         (errorString "multiple capabilityChains not supported yet")))).
Proof.
  destruct (Verify_deep_chain (methods := stubMethods)
              (stubVerifier [cap1]) (prove cap3 "read")
              (c := cap3) (first := IString "urn:cap:1") (next := IString "urn:cap:2")
              (rest := []) eq_refl eq_refl) as (Hnever & Hdeep).
  split.
  - apply Hnever.
  - apply (Hdeep (invoke "urn:cap:1" "read" "urn:cap:1") "urn:cap:1" cap1);
      try reflexivity.
    + right. reflexivity.
    + left. split; [discriminate | reflexivity].
Defined.

(** C7 (counter-example): [cap1] has an empty chain, targets itself and
    lists the verification method's ID, yet it is refused when the resolver
    does not know it, when the expected action, target or root capability
    differ, when the action is not allowed, or when the structural
    validation rejects the document. *)
Lemma Verify_self_reference_not_enough :
  capabilityChain cap1 = ([], None)
  /\ InvocationTarget.ID (Capability.InvocationTarget cap1) = Capability.ID cap1
  /\ In (VerificationMethod.ID aliceDID) (fst (invokers cap1))
  /\ Verify (stubVerifier []) (Some (prove cap1 "read"))
       (Some (invokeBy (Some aliceDID) EmptyString "read" EmptyString))
     = (["urn:cap:1"],
        Returns (Some (Errorf_w "invalid capability chain: "
                         (errResolve "urn:cap:1" (errors_New "capability not found")))))
  /\ Verify (stubVerifier [cap1]) (Some (prove cap1 "read"))
       (Some (invokeBy (Some aliceDID) EmptyString "write" EmptyString))
     = ([], Returns (Some (Errorf_w "invalid capability chain: "
                             (errActionMismatch "read" "write"))))
  /\ Verify (stubVerifier [cap1]) (Some (prove cap1 "read"))
       (Some (invokeBy (Some aliceDID) "urn:edv:vault" "read" EmptyString))
     = (["urn:cap:1"],
        Returns (Some (Errorf_w "invalid capability chain: "
                         (errTargetMismatch "urn:edv:vault" "urn:cap:1"))))
  /\ Verify (stubVerifier [cap1]) (Some (prove cap1 "read"))
       (Some (invokeBy (Some aliceDID) EmptyString "read" "urn:root:A"))
     = (["urn:cap:1"],
        Returns (Some (Errorf_w "invalid capability chain: "
                         (errRootMismatch "urn:root:A" "urn:cap:1"))))
  /\ Verify (stubVerifier [cap1]) (Some (prove cap1 "write"))
       (Some (invokeBy (Some aliceDID) EmptyString "write" EmptyString))
     = ([], Returns (Some (Errorf_w "invalid capability chain: "
                             (errActionNotAllowed "write" ["read"]))))
  /\ Verify (methods := strictMethods) (stubVerifier [cap1]) (Some (prove cap1 "read"))
       (Some (invokeBy (Some aliceDID) EmptyString "read" EmptyString))
     = ([], Returns (Some (Errorf_w "invalid capability chain: "
                             (Errorf_w "invalid capability chain: "
                                (errors_New "malformed capabilityChain"))))).
Proof.
  repeat split. simpl. left. reflexivity.
Qed.

Lemma Verify_root_self_reference_witness :
  Verify (stubVerifier [cap1]) (Some (prove cap1 "read"))
    (Some (invokeBy (Some aliceDID) EmptyString "read" EmptyString))
  = (["urn:cap:1"], Returns None).
Proof.
  apply (Verify_root_self_reference (stubVerifier [cap1]) (prove cap1 "read")
           (c := cap1) (invokeBy (Some aliceDID) EmptyString "read" EmptyString)
           (vm := aliceDID) (l := ["did:ex:alice"])); try reflexivity.
  - left. reflexivity.
  - right. right. left. reflexivity.
  - left. reflexivity.
  - left. reflexivity.
Defined.

Lemma Verify_ignores_root_fields_witness :
  Capability.AllowedAction cap1 <> Capability.AllowedAction cap1'
  /\ invokers cap1 <> invokers cap1'
  /\ Verify (stubVerifier [cap1]) (Some (prove cap2 "read")) (Some (invoke EmptyString "read" EmptyString))
     = Verify (stubVerifier [cap1']) (Some (prove cap2 "read")) (Some (invoke EmptyString "read" EmptyString))
  /\ result (Verify (stubVerifier [cap1]) (Some (prove cap2 "read"))
               (Some (invoke EmptyString "read" EmptyString)))
     = match result (isInvoker (Some cap2) (Some alice)) with
       | Returns (_, Some err) => Returns (Some (Errorf_w "isInvoke: " err))
       | Returns (true, None) => Returns None
       | Returns (false, None) => Returns (Some errNotInvoker)
       | Panics => Panics
       end.
Proof.
  split; [discriminate|]. split; [discriminate|].
  assert (Hview : forall uri,
             option_map rootView (zcapsResolve (stubVerifier [cap1]) uri)
             = option_map rootView (zcapsResolve (stubVerifier [cap1']) uri)).
  { intros uri. simpl. destruct (String.eqb uri "urn:cap:1"); reflexivity. }
  destruct (Verify_ignores_root_fields (stubVerifier [cap1]) (stubVerifier [cap1'])
              (Some (prove cap2 "read")) (Some (invoke EmptyString "read" EmptyString)) Hview)
    as (Hsame & Hinvoker).
  split; [exact Hsame|].
  apply (Hinvoker (prove cap2 "read") cap2 (invoke EmptyString "read" EmptyString)); reflexivity.
Defined.

(** C10 (counter-example): [NewVerifier] accepts a nil resolver; with the
    verifier it returns, a proof, an invocation and a verification method
    that are all there, and no resolver call that could return a nil root,
    [Verify] panics at the call of the resolver.  And a nil invocation is
    not dereferenced when the action scoping refuses the action first. *)
Lemma Verify_panics_without_resolver :
  NewVerifier (Body := StubBody) None = (noResolverVerifier, None)
  /\ CapabilityInvocation.VerificationMethod (invoke EmptyString "read" EmptyString)
     = Some alice
  /\ (forall uri root,
        zcapsResolve noResolverVerifier uri = Some (root, None) -> root <> None)
  /\ Verify noResolverVerifier (Some (prove cap1 "read"))
       (Some (invoke EmptyString "read" EmptyString))
     = ([], Panics)
  /\ Verify (stubVerifier [cap1]) (Some (prove cap1 "write")) None
     = ([], Returns (Some (Errorf_w "invalid capability chain: "
                             (errActionNotAllowed "write" ["read"])))).
Proof.
  split; [reflexivity|]. split; [reflexivity|]. split; [|split; reflexivity].
  intros uri root H. discriminate H.
Qed.

Lemma Verify_nil_safety_witness :
  Verify (stubVerifier [cap1]) None (Some (invoke EmptyString "read" EmptyString)) = ([], Panics)
  /\ Verify (stubVerifier [cap1]) (Some (prove cap1 "read")) None = ([], Panics)
  /\ result (Verify (stubVerifier [cap1]) (Some (prove cap1 "write")) None) <> Panics
  /\ Verify noResolverVerifier (Some (prove cap1 "read"))
       (Some (invoke EmptyString "read" EmptyString))
     = ([], Panics)
  /\ Verify None (Some (prove cap1 "read"))
       (Some (invoke EmptyString "read" EmptyString))
     = ([], Panics)
  /\ Verify (stubVerifier [cap1]) (Some (prove cap1 "read"))
       (Some (invokeBy None EmptyString "read" EmptyString))
     = (["urn:cap:1"], Panics)
  /\ result (Verify (stubVerifier [cap1]) (Some (prove cap1 "read"))
               (Some (invoke EmptyString "read" EmptyString))) <> Panics.
Proof.
  destruct (Verify_nil_safety (methods := stubMethods) (stubVerifier [cap1]))
    as (Hproof & _ & Hinvocation & Hscoped & _ & Hmethod & Hsafe).
  destruct (Verify_nil_safety (methods := stubMethods) noResolverVerifier)
    as (_ & _ & _ & _ & Hresolver & _ & _).
  destruct (Verify_nil_safety (methods := stubMethods) None)
    as (_ & _ & _ & _ & Hverifier & _ & _).
  split; [apply Hproof|]. split; [|split; [|split; [|split; [|split]]]].
  - apply (Hinvocation (prove cap1 "read") cap1); reflexivity.
  - apply (Hscoped (prove cap1 "write") cap1); reflexivity.
  - apply (Hresolver (prove cap1 "read") cap1 (invoke EmptyString "read" EmptyString)
             true "urn:cap:1" []); [reflexivity | reaches_resolver | reflexivity].
  - apply (Hverifier (prove cap1 "read") cap1 (invoke EmptyString "read" EmptyString)
             true "urn:cap:1" []); [reflexivity | reaches_resolver | reflexivity].
  - apply (Hmethod (prove cap1 "read") cap1 (invokeBy None EmptyString "read" EmptyString)
             ["urn:cap:1"] ["did:ex:alice"]); reflexivity.
  - apply (Hsafe (prove cap1 "read") (invoke EmptyString "read" EmptyString) alice
             {| Resolve := lookup [cap1] |}); [reflexivity | reflexivity |].
    intros uri root. simpl. destruct (String.eqb uri "urn:cap:1"); intros H;
      inversion H; discriminate.
Defined.

(** * Further properties of verify.go *)

Section Coverage.

Context {Body Dyn : Type} {methods : CapabilityMethods Body Dyn}.

Ltac conj_split := repeat match goal with |- _ /\ _ => split end.

Ltac eqb_split :=
  repeat match goal with
  | |- context [String.eqb ?a ?b] => destruct (String.eqb_spec a b)
  end; cbn [negb andb].

Lemma Verify_resolved (v : option (Verifier Body)) (p : Proof_.t Body) (c : Capability.t Body)
    (inv : CapabilityInvocation.t) (isRoot : bool) (uri : string)
    (rest : list (untyped Dyn)) (root : Capability.t Body) :
  Proof_.Capability p = Some c ->
  reachesResolver c (Proof_.CapabilityAction p) inv isRoot uri rest ->
  zcapsResolve v uri = Some (Some root, None) ->
  Verify v (Some p) (Some inv)
  = ([uri], afterChain c inv (Returns (rootChecks inv isRoot rest root))).
Proof.
  intros Hp Hr Hres. rewrite (Verify_at_resolver v p Hp Hr Hres). reflexivity.
Qed.

Lemma rootChecks_None_iff (inv : CapabilityInvocation.t) (isRoot : bool)
    (rest : list (untyped Dyn)) (root : Capability.t Body) :
  rootChecks inv isRoot rest root = None <->
  (CapabilityInvocation.ExpectedTarget inv = EmptyString
   \/ CapabilityInvocation.ExpectedTarget inv
      = InvocationTarget.ID (Capability.InvocationTarget root))
  /\ ((CapabilityInvocation.ExpectedRootCapability inv <> EmptyString
       /\ CapabilityInvocation.ExpectedRootCapability inv = Capability.ID root)
      \/ (CapabilityInvocation.ExpectedRootCapability inv = EmptyString
          /\ InvocationTarget.ID (Capability.InvocationTarget root) = Capability.ID root))
  /\ (isRoot = true \/ rest = []).
Proof.
  unfold rootChecks.
  eqb_split; destruct isRoot; destruct rest as [|x rest]; cbn;
    split; intros H; try discriminate H; try reflexivity;
    try (repeat split; auto; tauto);
    exfalso; intuition congruence.
Qed.

Lemma invokerCheck_None_iff (c : Capability.t Body)
    (verificationMethod : option VerificationMethod.t) :
  invokerCheck c verificationMethod = Returns None <->
  exists l vm,
    invokers c = (l, None) /\ verificationMethod = Some vm
    /\ (In (VerificationMethod.ID vm) l
        \/ (VerificationMethod.Controller vm <> EmptyString
            /\ In (VerificationMethod.Controller vm) l)).
Proof.
  unfold invokerCheck.
  destruct (invokers c) as [l [err|]].
  { split; [discriminate | intros (l' & vm & H & _); discriminate H]. }
  destruct verificationMethod as [vm|].
  2:{ split; [discriminate | intros (l' & vm & _ & H & _); discriminate H]. }
  assert (Hauth :
    stringsContain l (VerificationMethod.ID vm)
    || (negb (String.eqb (VerificationMethod.Controller vm) EmptyString)
        && stringsContain l (VerificationMethod.Controller vm)) = true
    <-> In (VerificationMethod.ID vm) l
        \/ (VerificationMethod.Controller vm <> EmptyString
            /\ In (VerificationMethod.Controller vm) l)).
  { rewrite orb_true_iff, andb_true_iff, negb_true_iff, String.eqb_neq,
      !stringsContain_In. tauto. }
  destruct l as [|x l].
  - cbn. split; [discriminate|]. intros (l' & vm' & Hl & _ & Hin).
    injection Hl as <-. destruct Hin as [[]|[_ []]].
  - change (0 <? List.length (x :: l))%nat with true. cbn [andb].
    destruct (stringsContain (x :: l) (VerificationMethod.ID vm)
              || (negb (String.eqb (VerificationMethod.Controller vm) EmptyString)
                  && stringsContain (x :: l) (VerificationMethod.Controller vm))) eqn:Hb.
    + split; [intros _ | reflexivity]. exists (x :: l), vm.
      split; [reflexivity|]. split; [reflexivity|]. apply Hauth. reflexivity.
    + split; [discriminate|]. intros (l' & vm' & Hl & Hvm & Hin).
      injection Hl as <-. injection Hvm as <-.
      apply Hauth in Hin. congruence.
Qed.

(** [Verify] in terms of the run of the chain verification. *)
Lemma Verify_via_chain (v : option (Verifier Body)) (p : Proof_.t Body) (c : Capability.t Body)
    (invocation : option CapabilityInvocation.t) (cs : list string)
    (r : outcome (option error)) :
  Proof_.Capability p = Some c ->
  verifyCapabilityChain v (Some c) (Proof_.CapabilityAction p) invocation = (cs, r) ->
  Verify v (Some p) invocation
  = (cs, match r with
         | Panics => Panics
         | Returns (Some err) => Returns (Some (Errorf_w "invalid capability chain: " err))
         | Returns None =>
             match invocation with
             | None => Panics
             | Some inv => invokerCheck c (CapabilityInvocation.VerificationMethod inv)
             end
         end).
Proof.
  intros Hp Hc. unfold Verify. cbn [deref]. rewrite bind_ret, Hp, Hc.
  destruct r as [[err|]|]; [| |reflexivity]; rewrite bind_returns; cbn beta iota.
  - cbn [ret calls result fst snd]. rewrite app_nil_r. reflexivity.
  - destruct invocation as [inv|]; [|cbn; rewrite app_nil_r; reflexivity].
    cbn [deref]. rewrite bind_ret, isInvoker_invokerCheck. cbn [calls result fst snd].
    rewrite app_nil_r. reflexivity.
Qed.

Lemma stringsContain_ext (l l' : list string) (s : string) :
  (forall x, In x l <-> In x l') -> stringsContain l s = stringsContain l' s.
Proof.
  intros H. destruct (stringsContain l s) eqn:Hl; symmetry.
  - apply stringsContain_In, H, stringsContain_In, Hl.
  - apply stringsContain_false. intros Hin. apply H in Hin.
    apply stringsContain_In in Hin. congruence.
Qed.

(** The loop of [stringsContain] decides membership by exact string
    equality, and searching a concatenation is searching either part. *)
Theorem stringsContain_membership (strs strs' : list string) (s : string) :
  (stringsContain strs s = true <-> In s strs)
  /\ (stringsContain strs s = false <-> ~ In s strs)
  /\ stringsContain (strs ++ strs') s = stringsContain strs s || stringsContain strs' s.
Proof.
  split; [apply stringsContain_In|]. split; [apply stringsContain_false|].
  induction strs as [|x strs IH]; [reflexivity|].
  cbn [app stringsContain]. destruct (String.eqb s x); [reflexivity | exact IH].
Qed.

(** Once the root is resolved, an expected target that is set and is not
    the root's invocation target makes [Verify] fail with the
    target-mismatch error quoting both, whatever the expected root
    capability, the rest of the chain and the invokers are. *)
Theorem Verify_target_mismatch (v : option (Verifier Body)) (p : Proof_.t Body)
    (c : Capability.t Body) (inv : CapabilityInvocation.t) (isRoot : bool)
    (uri : string) (rest : list (untyped Dyn)) (root : Capability.t Body) :
  Proof_.Capability p = Some c ->
  reachesResolver c (Proof_.CapabilityAction p) inv isRoot uri rest ->
  zcapsResolve v uri = Some (Some root, None) ->
  CapabilityInvocation.ExpectedTarget inv <> EmptyString ->
  CapabilityInvocation.ExpectedTarget inv
  <> InvocationTarget.ID (Capability.InvocationTarget root) ->
  Verify v (Some p) (Some inv)
  = ([uri], Returns (Some (Errorf_w "invalid capability chain: "
       (errorString
          ("expected target does not match root capability target: expected="
           ++ dq ++ CapabilityInvocation.ExpectedTarget inv ++ dq ++ " target="
           ++ dq ++ InvocationTarget.ID (Capability.InvocationTarget root) ++ dq))))).
Proof.
  intros Hp Hr Hres Hset Hne.
  rewrite (Verify_resolved v p Hp Hr Hres). unfold rootChecks.
  apply String.eqb_neq in Hset, Hne. rewrite Hset, Hne. reflexivity.
Qed.

(** With an expected root capability and no expected target, the root's
    invocation target is never consulted: two resolvers that agree, URI by
    URI, on the error and on the ID of the root give the same run. *)
Theorem Verify_ignores_root_target (v1 v2 : option (Verifier Body))
    (proof : option (Proof_.t Body)) (inv : CapabilityInvocation.t) :
  (forall uri,
      option_map snd (zcapsResolve v1 uri) = option_map snd (zcapsResolve v2 uri)
      /\ option_map (fun answer => option_map (@Capability.ID Body) (fst answer))
           (zcapsResolve v1 uri)
         = option_map (fun answer => option_map (@Capability.ID Body) (fst answer))
             (zcapsResolve v2 uri)) ->
  CapabilityInvocation.ExpectedTarget inv = EmptyString ->
  CapabilityInvocation.ExpectedRootCapability inv <> EmptyString ->
  Verify v1 proof (Some inv) = Verify v2 proof (Some inv).
Proof.
  intros Hsame Ht Hroot.
  destruct (Verify_cases proof (Some inv))
    as [(r & Hr & _) | (p & c & inv' & isRoot & uri & rest & -> & Hp & Hi & Hr)].
  { rewrite !Hr. reflexivity. }
  injection Hi as <-.
  destruct (Hsame uri) as [Herr Hid].
  destruct (zcapsResolve v1 uri) as [[root1 err1]|] eqn:H1,
           (zcapsResolve v2 uri) as [[root2 err2]|] eqn:H2;
    try discriminate Herr.
  2:{ rewrite (Verify_no_resolver v1 p Hp Hr H1), (Verify_no_resolver v2 p Hp Hr H2).
      reflexivity. }
  rewrite (Verify_at_resolver v1 p Hp Hr H1), (Verify_at_resolver v2 p Hp Hr H2).
  do 2 f_equal.
  cbn [option_map fst snd] in Herr, Hid.
  injection Herr as <-. injection Hid as Hid.
  destruct root1 as [root1|], root2 as [root2|]; cbn in Hid; try discriminate;
    destruct err1 as [err|]; cbn [afterResolve]; try reflexivity.
  injection Hid as Hid. f_equal. unfold rootChecks. rewrite Ht, Hid.
  apply String.eqb_neq in Hroot. rewrite Hroot. reflexivity.
Qed.

(** A chain whose first entry is not a string is refused with the
    invalid-rootURI error and the resolver is not called. *)
Theorem Verify_invalid_root_URI (v : option (Verifier Body)) (p : Proof_.t Body)
    (c : Capability.t Body) (inv : CapabilityInvocation.t) (d : Dyn)
    (rest : list (untyped Dyn)) :
  Proof_.Capability p = Some c ->
  actionNotAllowed (Capability.AllowedAction c) (Proof_.CapabilityAction p) = false ->
  CapabilityInvocation.ExpectedAction inv = Proof_.CapabilityAction p ->
  validateCapabilityChain c = None ->
  capabilityChain c = (IOther d :: rest, None) ->
  Verify v (Some p) (Some inv)
  = ([], Returns (Some (Errorf_w "invalid capability chain: "
                          (errorString ("invalid rootURI format: " ++ fmt_v d))))).
Proof.
  intros Hp Hs He Hv Hc.
  assert (Hchain : verifyCapabilityChain v (Some c) (Proof_.CapabilityAction p) (Some inv)
                   = ([], Returns (Some (errInvalidRootURI (IOther d))))).
  { unfold verifyCapabilityChain. cbn [deref]. rewrite bind_ret, Hs.
    cbn [deref]. rewrite bind_ret, He, String.eqb_refl, Hv, Hc. reflexivity. }
  rewrite (Verify_via_chain v p (Some inv) Hp Hchain). reflexivity.
Qed.

(** A structural validation error, or an error while fetching the chain,
    stops [Verify] before the resolver is called; each is wrapped with its
    own prefix, and the chain returned beside a fetch error is ignored. *)
Theorem Verify_chain_structure_errors (v : option (Verifier Body)) (p : Proof_.t Body)
    (c : Capability.t Body) (inv : CapabilityInvocation.t) :
  Proof_.Capability p = Some c ->
  actionNotAllowed (Capability.AllowedAction c) (Proof_.CapabilityAction p) = false ->
  CapabilityInvocation.ExpectedAction inv = Proof_.CapabilityAction p ->
  (forall err,
      validateCapabilityChain c = Some err ->
      Verify v (Some p) (Some inv)
      = ([], Returns (Some (Errorf_w "invalid capability chain: "
                              (Errorf_w "invalid capability chain: " err)))))
  /\ (forall chain err,
        validateCapabilityChain c = None ->
        capabilityChain c = (chain, Some err) ->
        Verify v (Some p) (Some inv)
        = ([], Returns (Some (Errorf_w "invalid capability chain: "
                                (Errorf_w "failed to fetch capabilityChain: " err))))).
Proof.
  intros Hp Hs He. split.
  - intros err Hv.
    assert (Hchain : verifyCapabilityChain v (Some c) (Proof_.CapabilityAction p) (Some inv)
                     = ([], Returns (Some (Errorf_w "invalid capability chain: " err)))).
    { unfold verifyCapabilityChain. cbn [deref]. rewrite bind_ret, Hs.
      cbn [deref]. rewrite bind_ret, He, String.eqb_refl, Hv. reflexivity. }
    rewrite (Verify_via_chain v p (Some inv) Hp Hchain). reflexivity.
  - intros chain err Hv Hc.
    assert (Hchain : verifyCapabilityChain v (Some c) (Proof_.CapabilityAction p) (Some inv)
                     = ([], Returns (Some (Errorf_w "failed to fetch capabilityChain: " err)))).
    { unfold verifyCapabilityChain. cbn [deref]. rewrite bind_ret, Hs.
      cbn [deref]. rewrite bind_ret, He, String.eqb_refl, Hv, Hc. reflexivity. }
    rewrite (Verify_via_chain v p (Some inv) Hp Hchain). reflexivity.
Qed.

Lemma chain_passes_reaches (v : option (Verifier Body)) (c : Capability.t Body) (action : string)
    (invocation : option CapabilityInvocation.t) (cs : list string) :
  verifyCapabilityChain v (Some c) action invocation = (cs, Returns None) ->
  exists inv isRoot uri rest root,
    invocation = Some inv /\ reachesResolver c action inv isRoot uri rest
    /\ cs = [uri] /\ zcapsResolve v uri = Some (Some root, None)
    /\ rootChecks inv isRoot rest root = None.
Proof.
  intros H.
  destruct (verifyCapabilityChain_cases c action invocation)
    as [(r & Hr & Hne & _) | (inv & isRoot & uri & rest & -> & Hr)].
  - rewrite Hr in H. congruence.
  - destruct (zcapsResolve v uri) as [answer|] eqn:Ha.
    2:{ rewrite (verifyCapabilityChain_no_resolver v Hr Ha) in H. discriminate H. }
    rewrite (verifyCapabilityChain_at_resolver v Hr Ha) in H.
    injection H as <- H.
    exists inv, isRoot, uri, rest.
    destruct answer as [[root|] [err|]]; cbn [afterResolve] in H;
      try discriminate.
    injection H as H. exists root. conj_split; auto.
Qed.

(** The resolver is called at most once, only after steps 1-4 pass and
    only with the root URI: the capability's own ID for an empty chain,
    the first chain entry otherwise.  A run without a resolver call is
    never a success, and [isInvoker] never calls the resolver. *)
Theorem Verify_resolver_calls (v : option (Verifier Body)) (proof : option (Proof_.t Body))
    (invocation : option CapabilityInvocation.t) :
  ((calls (Verify v proof invocation) = []
    /\ result (Verify v proof invocation) <> Returns None)
   \/ (exists p c inv chain,
         proof = Some p /\ Proof_.Capability p = Some c /\ invocation = Some inv
         /\ capabilityChain c = (chain, None)
         /\ ((chain = [] /\ calls (Verify v proof invocation) = [Capability.ID c])
             \/ (exists uri rest,
                   chain = IString uri :: rest
                   /\ calls (Verify v proof invocation) = [uri]))))
  /\ (forall capability verificationMethod,
        calls (isInvoker capability verificationMethod) = []).
Proof.
  split.
  - destruct (Verify_cases proof invocation)
      as [(r & Hr & Hne & _) | (p & c & inv & isRoot & uri & rest & -> & Hp & -> & Hr)].
    + left. rewrite Hr. split; [reflexivity | exact Hne].
    + destruct (zcapsResolve v uri) as [answer|] eqn:Ha.
      2:{ left. rewrite (Verify_no_resolver v p Hp Hr Ha).
          split; [reflexivity | discriminate]. }
      right. rewrite (Verify_at_resolver v p Hp Hr Ha).
      destruct Hr as [_ _ _ (chain & Hc & Hroot)].
      exists p, c, inv, chain. repeat split; auto.
      destruct Hroot; [left; auto | right; eauto].
  - intros [c|] vm; [|reflexivity]. unfold isInvoker. cbn [deref]. rewrite bind_ret.
    destruct (invokers c) as [l [err|]]; [reflexivity|].
    destruct vm as [vm|]; [|reflexivity]. cbn [deref]. rewrite bind_ret.
    destruct (0 <? List.length l)%nat; reflexivity.
Qed.

(** [Verify] returns nil exactly when: the proof holds a capability; the
    action passes the scoping and equals the expected action; the chain is
    valid and is empty or a single URI; the resolver returns a root for the
    root URI without error; the expected target is unset or is the root's
    target; the expected root capability is the root's ID or, when unset,
    the root targets itself; and the invocation's verification method, by
    its ID or its non-empty controller, is among the invokers of the
    capability of the proof. *)
Theorem Verify_accepts_iff (v : option (Verifier Body)) (proof : option (Proof_.t Body))
    (invocation : option CapabilityInvocation.t) :
  result (Verify v proof invocation) = Returns None <->
  exists p c inv vm isRoot uri rest root l,
    proof = Some p /\ Proof_.Capability p = Some c /\ invocation = Some inv
    /\ reachesResolver c (Proof_.CapabilityAction p) inv isRoot uri rest
    /\ zcapsResolve v uri = Some (Some root, None)
    /\ (CapabilityInvocation.ExpectedTarget inv = EmptyString
        \/ CapabilityInvocation.ExpectedTarget inv
           = InvocationTarget.ID (Capability.InvocationTarget root))
    /\ ((CapabilityInvocation.ExpectedRootCapability inv <> EmptyString
         /\ CapabilityInvocation.ExpectedRootCapability inv = Capability.ID root)
        \/ (CapabilityInvocation.ExpectedRootCapability inv = EmptyString
            /\ InvocationTarget.ID (Capability.InvocationTarget root)
               = Capability.ID root))
    /\ (isRoot = true \/ rest = [])
    /\ invokers c = (l, None)
    /\ CapabilityInvocation.VerificationMethod inv = Some vm
    /\ (In (VerificationMethod.ID vm) l
        \/ (VerificationMethod.Controller vm <> EmptyString
            /\ In (VerificationMethod.Controller vm) l)).
Proof.
  split.
  - intros Hok.
    destruct proof as [p|]; [|discriminate Hok].
    destruct (Proof_.Capability p) as [c|] eqn:Hp.
    2:{ unfold Verify in Hok. cbn [deref] in Hok. rewrite bind_ret, Hp in Hok.
        discriminate Hok. }
    destruct (verifyCapabilityChain v (Some c) (Proof_.CapabilityAction p) invocation)
      as [cs r] eqn:Hc.
    rewrite (Verify_via_chain v p invocation Hp Hc) in Hok. cbn [result snd] in Hok.
    destruct r as [[err|]|]; try discriminate Hok.
    destruct (chain_passes_reaches v c _ invocation Hc)
      as (inv & isRoot & uri & rest & root & -> & Hr & _ & Hres & Hchk).
    apply invokerCheck_None_iff in Hok. destruct Hok as (l & vm & Hl & Hvm & Hin).
    apply rootChecks_None_iff in Hchk. destruct Hchk as (Ht & Hid & Hlast).
    exists p, c, inv, vm, isRoot, uri, rest, root, l. conj_split; auto.
  - intros (p & c & inv & vm & isRoot & uri & rest & root & l
            & -> & Hp & -> & Hr & Hres & Ht & Hid & Hlast & Hl & Hvm & Hin).
    rewrite (Verify_resolved v p Hp Hr Hres). cbn [result snd].
    rewrite (proj2 (rootChecks_None_iff inv isRoot rest root)) by auto.
    cbn [afterChain]. apply invokerCheck_None_iff. exists l, vm. auto.
Qed.

(** Every error of [Verify] is one of four kinds: the missing-capability
    error; the error of the chain verification under the prefix "invalid
    capability chain: "; the error of the invoker accessor under the
    prefixes "isInvoke: " and "failed to fetch invokers: "; or the
    unauthorized-invoker error.  The last two only occur after the chain
    verification passed. *)
Theorem Verify_error_kinds (v : option (Verifier Body)) (proof : option (Proof_.t Body))
    (invocation : option CapabilityInvocation.t) (e : error) :
  result (Verify v proof invocation) = Returns (Some e) ->
  (e = errMissingCapability /\ exists p, proof = Some p /\ Proof_.Capability p = None)
  \/ (exists p c e',
        proof = Some p /\ Proof_.Capability p = Some c
        /\ result (verifyCapabilityChain v (Some c) (Proof_.CapabilityAction p) invocation)
           = Returns (Some e')
        /\ e = Errorf_w "invalid capability chain: " e')
  \/ (exists p c inv,
        proof = Some p /\ Proof_.Capability p = Some c /\ invocation = Some inv
        /\ result (verifyCapabilityChain v (Some c) (Proof_.CapabilityAction p) invocation)
           = Returns None
        /\ ((exists l err,
               invokers c = (l, Some err)
               /\ e = Errorf_w "isInvoke: " (Errorf_w "failed to fetch invokers: " err))
            \/ ((exists l, invokers c = (l, None)) /\ e = errNotInvoker))).
Proof.
  intros He.
  destruct proof as [p|]; [|discriminate He].
  destruct (Proof_.Capability p) as [c|] eqn:Hp.
  2:{ left. unfold Verify in He. cbn [deref] in He. rewrite bind_ret, Hp in He.
      cbn in He. injection He as <-. split; [reflexivity | eauto]. }
  right.
  destruct (verifyCapabilityChain v (Some c) (Proof_.CapabilityAction p) invocation)
    as [cs r] eqn:Hc.
  rewrite (Verify_via_chain v p invocation Hp Hc) in He. cbn [result snd] in He.
  destruct r as [[err|]|]; try discriminate He.
  - left. injection He as <-. exists p, c, err.
    conj_split; try reflexivity; [exact Hp | rewrite Hc; reflexivity].
  - right.
    destruct (chain_passes_reaches v c _ invocation Hc)
      as (inv & _ & _ & _ & _ & -> & _).
    exists p, c, inv. conj_split; try reflexivity;
      [exact Hp | rewrite Hc; reflexivity |].
    unfold invokerCheck in He.
    destruct (invokers c) as [l [err|]].
    + left. injection He as <-. eauto.
    + right. split; [eauto|].
      destruct (CapabilityInvocation.VerificationMethod inv) as [vm|];
        [|discriminate He].
      match type of He with (if ?b then _ else _) = _ => destruct b end;
        [discriminate He | injection He as <-; reflexivity].
Qed.

(** A verification method whose ID is not among the invokers, and whose
    controller is empty or not among them, is never accepted; when the
    chain verification passes, the error is the unauthorized-invoker one. *)
Theorem Verify_unauthorized_invoker (v : option (Verifier Body)) (p : Proof_.t Body)
    (c : Capability.t Body) (inv : CapabilityInvocation.t) (vm : VerificationMethod.t)
    (l : list string) :
  Proof_.Capability p = Some c ->
  invokers c = (l, None) ->
  CapabilityInvocation.VerificationMethod inv = Some vm ->
  ~ In (VerificationMethod.ID vm) l ->
  VerificationMethod.Controller vm = EmptyString
    \/ ~ In (VerificationMethod.Controller vm) l ->
  result (Verify v (Some p) (Some inv)) <> Returns None
  /\ (forall cs,
        verifyCapabilityChain v (Some c) (Proof_.CapabilityAction p) (Some inv)
        = (cs, Returns None) ->
        Verify v (Some p) (Some inv)
        = (cs, Returns (Some (errorString
             "the authorized invoker does not match the verification method or its controller")))).
Proof.
  intros Hp Hl Hvm Hid Hctl.
  assert (Hcheck : invokerCheck c (Some vm) = Returns (Some errNotInvoker)).
  { destruct (invokerCheck c (Some vm)) as [[e|]|] eqn:Hi.
    - unfold invokerCheck in Hi. rewrite Hl in Hi.
      match type of Hi with (if ?b then _ else _) = _ => destruct b end;
        congruence.
    - apply invokerCheck_None_iff in Hi.
      destruct Hi as (l' & vm' & Hl' & Hvm' & Hin).
      rewrite Hl in Hl'. injection Hl' as <-. injection Hvm' as <-. tauto.
    - unfold invokerCheck in Hi. rewrite Hl in Hi.
      match type of Hi with (if ?b then _ else _) = _ => destruct b end;
        discriminate Hi. }
  split.
  - destruct (verifyCapabilityChain v (Some c) (Proof_.CapabilityAction p) (Some inv))
      as [cs r] eqn:Hc.
    rewrite (Verify_via_chain v p (Some inv) Hp Hc), Hvm. cbn [result snd].
    destruct r as [[err|]|]; try discriminate. rewrite Hcheck. discriminate.
  - intros cs Hc. rewrite (Verify_via_chain v p (Some inv) Hp Hc), Hvm. f_equal.
    exact Hcheck.
Qed.

(** A capability whose invoker list is empty is never accepted, whoever
    invokes it and whatever the resolver returns. *)
Theorem Verify_no_invoker_listed (v : option (Verifier Body)) (p : Proof_.t Body)
    (c : Capability.t Body) (invocation : option CapabilityInvocation.t) :
  Proof_.Capability p = Some c ->
  invokers c = ([], None) ->
  result (Verify v (Some p) invocation) <> Returns None.
Proof.
  intros Hp Hl.
  destruct (verifyCapabilityChain v (Some c) (Proof_.CapabilityAction p) invocation)
    as [cs r] eqn:Hc.
  rewrite (Verify_via_chain v p invocation Hp Hc). cbn [result snd].
  destruct r as [[err|]|]; try discriminate.
  destruct invocation as [inv|]; [|discriminate].
  intros Hok. apply invokerCheck_None_iff in Hok.
  destruct Hok as (l & vm & Hl' & _ & Hin).
  rewrite Hl in Hl'. injection Hl' as <-.
  destruct Hin as [[]|[_ []]].
Qed.

(** When the invoker accessor fails, [isInvoker] answers false with the
    error wrapped and does not dereference the verification method; after
    a passing chain verification [Verify] returns that error under the
    prefix "isInvoke: ", even for a nil verification method. *)
Theorem Verify_invokers_error (v : option (Verifier Body)) (p : Proof_.t Body)
    (c : Capability.t Body) (inv : CapabilityInvocation.t) (l : list string)
    (err : error) (cs : list string) :
  Proof_.Capability p = Some c ->
  invokers c = (l, Some err) ->
  (forall verificationMethod,
      isInvoker (Some c) verificationMethod
      = ([], Returns (false, Some (Errorf_w "failed to fetch invokers: " err))))
  /\ (verifyCapabilityChain v (Some c) (Proof_.CapabilityAction p) (Some inv)
      = (cs, Returns None) ->
      Verify v (Some p) (Some inv)
      = (cs, Returns (Some (Errorf_w "isInvoke: "
                              (Errorf_w "failed to fetch invokers: " err))))).
Proof.
  intros Hp Hl. split.
  - intros vm. unfold isInvoker. cbn [deref]. rewrite bind_ret, Hl. reflexivity.
  - intros Hc. rewrite (Verify_via_chain v p (Some inv) Hp Hc).
    unfold invokerCheck. rewrite Hl. reflexivity.
Qed.

(** The [VerificationMethod] field of the proof is never read: the run
    depends on the proof only through its capability and its action. *)
Theorem Verify_ignores_proof_method (v : option (Verifier Body))
    (capability : option (Capability.t Body)) (action vm vm' : string)
    (invocation : option CapabilityInvocation.t) :
  Verify v (Some (Proof_.mk capability action vm)) invocation
  = Verify v (Some (Proof_.mk capability action vm')) invocation.
Proof. reflexivity. Qed.

(** [isInvoker] reads the invoker list as a set: two capabilities whose
    invoker lists have the same members, in any order and with any
    repetition, authorize the same verification methods. *)
Theorem isInvoker_set_like (c c' : Capability.t Body) (l l' : list string)
    (verificationMethod : option VerificationMethod.t) :
  invokers c = (l, None) ->
  invokers c' = (l', None) ->
  (forall x, In x l <-> In x l') ->
  isInvoker (Some c) verificationMethod = isInvoker (Some c') verificationMethod.
Proof.
  intros Hl Hl' Hsame. unfold isInvoker. cbn [deref]. rewrite !bind_ret, Hl, Hl'.
  destruct verificationMethod as [vm|]; [|reflexivity].
  cbn [deref]. rewrite !bind_ret.
  rewrite !(fun s => @stringsContain_ext l l' s Hsame).
  assert (Hlen : (0 <? List.length l)%nat = (0 <? List.length l')%nat).
  { destruct l as [|x l], l' as [|x' l']; try reflexivity.
    - destruct (proj2 (Hsame x') (or_introl eq_refl)).
    - destruct (proj1 (Hsame x) (or_introl eq_refl)). }
  rewrite Hlen. reflexivity.
Qed.

(** [Verify] panics in exactly five situations: the proof is nil; the
    invocation is nil and the action scoping lets the chain verification go
    on; the resolver is to be called and the verifier is nil or holds no
    resolver; the resolver, called, returns a nil root without an error;
    the verification method is nil, the chain verification passed and the
    invoker list was fetched. *)
Theorem Verify_panics_iff (v : option (Verifier Body)) (proof : option (Proof_.t Body))
    (invocation : option CapabilityInvocation.t) :
  result (Verify v proof invocation) = Panics <->
  proof = None
  \/ (exists p c,
        proof = Some p /\ Proof_.Capability p = Some c /\ invocation = None
        /\ actionNotAllowed (Capability.AllowedAction c) (Proof_.CapabilityAction p)
           = false)
  \/ (exists p c inv isRoot uri rest,
        proof = Some p /\ Proof_.Capability p = Some c /\ invocation = Some inv
        /\ reachesResolver c (Proof_.CapabilityAction p) inv isRoot uri rest
        /\ resolverOf v = None)
  \/ (exists p c inv isRoot uri rest r,
        proof = Some p /\ Proof_.Capability p = Some c /\ invocation = Some inv
        /\ reachesResolver c (Proof_.CapabilityAction p) inv isRoot uri rest
        /\ resolverOf v = Some r /\ Resolve r uri = (None, None))
  \/ (exists p c inv l,
        proof = Some p /\ Proof_.Capability p = Some c /\ invocation = Some inv
        /\ result (verifyCapabilityChain v (Some c) (Proof_.CapabilityAction p)
                     (Some inv)) = Returns None
        /\ invokers c = (l, None)
        /\ CapabilityInvocation.VerificationMethod inv = None).
Proof.
  split.
  - intros Hpanic.
    destruct proof as [p|]; [right | left; reflexivity].
    destruct (Proof_.Capability p) as [c|] eqn:Hp.
    2:{ unfold Verify in Hpanic. cbn [deref] in Hpanic.
        rewrite bind_ret, Hp in Hpanic. discriminate Hpanic. }
    destruct (verifyCapabilityChain v (Some c) (Proof_.CapabilityAction p) invocation)
      as [cs r] eqn:Hc.
    rewrite (Verify_via_chain v p invocation Hp Hc) in Hpanic.
    cbn [result snd] in Hpanic.
    destruct r as [[err|]|]; [discriminate Hpanic | |].
    + right. right. right.
      destruct (chain_passes_reaches v c _ invocation Hc)
        as (inv & _ & _ & _ & _ & -> & _).
      unfold invokerCheck in Hpanic.
      destruct (invokers c) as [l [err|]] eqn:Hl; [discriminate Hpanic|].
      destruct (CapabilityInvocation.VerificationMethod inv) as [vm|] eqn:Hvm.
      { match type of Hpanic with (if ?b then _ else _) = _ => destruct b end;
          discriminate Hpanic. }
      exists p, c, inv, l. conj_split; try reflexivity; auto.
      rewrite Hc. reflexivity.
    + destruct (verifyCapabilityChain_cases c (Proof_.CapabilityAction p) invocation)
        as [(r & Hr & _ & Hnil) | (inv & isRoot & uri & rest & -> & Hr)].
      * left. rewrite Hr in Hc. injection Hc as <- ->.
        specialize (Hnil eq_refl). subst invocation.
        exists p, c. conj_split; try reflexivity; auto.
        destruct (actionNotAllowed (Capability.AllowedAction c)
                    (Proof_.CapabilityAction p)) eqn:Hs; [|reflexivity].
        specialize (Hr v). unfold verifyCapabilityChain in Hr.
        cbn [deref] in Hr. rewrite bind_ret, Hs in Hr. discriminate Hr.
      * right.
        rewrite (verifyCapabilityChain_from_resolver v Hr) in Hc.
        unfold fromResolver, zcapsResolve in Hc.
        destruct (resolverOf v) as [r|] eqn:Hv; cbn [option_map] in Hc.
        -- right. left. injection Hc as _ Hc.
           exists p, c, inv, isRoot, uri, rest, r.
           conj_split; try reflexivity; auto.
           destruct (Resolve r uri) as [[root|] [err|]];
             cbn [afterResolve] in Hc; try discriminate Hc. reflexivity.
        -- left. exists p, c, inv, isRoot, uri, rest.
           conj_split; try reflexivity; auto.
  - intros [-> | [(p & c & -> & Hp & -> & Hs)
                 | [(p & c & inv & isRoot & uri & rest & -> & Hp & -> & Hr & Hv)
                   | [(p & c & inv & isRoot & uri & rest & r & -> & Hp & -> & Hr & Hv & Hres)
                     | (p & c & inv & l & -> & Hp & -> & Hc & Hl & Hvm)]]]].
    + reflexivity.
    + unfold Verify. cbn [deref]. rewrite bind_ret, Hp.
      unfold verifyCapabilityChain. cbn [deref]. rewrite bind_ret, Hs. reflexivity.
    + rewrite (Verify_no_resolver v p Hp Hr); [reflexivity|].
      unfold zcapsResolve. rewrite Hv. reflexivity.
    + assert (Ha : zcapsResolve v uri = Some (None, None)).
      { unfold zcapsResolve. rewrite Hv. cbn. rewrite Hres. reflexivity. }
      rewrite (Verify_at_resolver v p Hp Hr Ha). reflexivity.
    + destruct (verifyCapabilityChain v (Some c) (Proof_.CapabilityAction p) (Some inv))
        as [cs r] eqn:Hchain. cbn [result snd] in Hc. subst r.
      rewrite (Verify_via_chain v p (Some inv) Hp Hchain). cbn [result snd].
      unfold invokerCheck. rewrite Hl, Hvm. reflexivity.
Qed.

(** Of the capability of the proof, [Verify] reads the allowed actions,
    what the three accessors return and, for an empty chain only, the ID;
    its own invocation target is never read.  Two capabilities that agree
    on those give the same run. *)
Theorem Verify_reads_of_capability (v : option (Verifier Body)) (c c' : Capability.t Body)
    (action vm : string) (invocation : option CapabilityInvocation.t) :
  Capability.AllowedAction c = Capability.AllowedAction c' ->
  validateCapabilityChain c = validateCapabilityChain c' ->
  capabilityChain c = capabilityChain c' ->
  invokers c = invokers c' ->
  fst (capabilityChain c) <> [] \/ Capability.ID c = Capability.ID c' ->
  Verify v (Some (Proof_.mk (Some c) action vm)) invocation
  = Verify v (Some (Proof_.mk (Some c') action vm)) invocation.
Proof.
  intros Ha Hv Hc Hi Hid.
  assert (Hchain : verifyCapabilityChain v (Some c) action invocation
                   = verifyCapabilityChain v (Some c') action invocation).
  { unfold verifyCapabilityChain. cbn [deref]. rewrite !bind_ret, Ha, Hv.
    rewrite Hc in Hid |- *.
    destruct (capabilityChain c') as [[|x chain] err]; [|reflexivity].
    destruct Hid as [Hid|Hid]; [cbn in Hid; congruence|]. rewrite Hid. reflexivity. }
  destruct (verifyCapabilityChain v (Some c') action invocation) as [cs r] eqn:Hrun.
  rewrite (Verify_via_chain v (Proof_.mk (Some c) action vm) invocation eq_refl Hchain).
  rewrite (Verify_via_chain v (Proof_.mk (Some c') action vm) invocation eq_refl Hrun).
  unfold invokerCheck. rewrite Hi. reflexivity.
Qed.


End Coverage.

Lemma Verify_target_mismatch_witness :
  Verify (stubVerifier [cap1]) (Some (prove cap1 "read"))
    (Some (invoke "urn:edv:vault" "read" "urn:root:A"))
  = (["urn:cap:1"],
     Returns (Some (Errorf_w "invalid capability chain: "
                      (errTargetMismatch "urn:edv:vault" "urn:cap:1")))).
Proof.
  apply (Verify_target_mismatch (methods := stubMethods) (stubVerifier [cap1]) (prove cap1 "read")
           (inv := invoke "urn:edv:vault" "read" "urn:root:A")
           (isRoot := true) (rest := []) (root := cap1) eq_refl).
  - reaches_resolver.
  - reflexivity.
  - discriminate.
  - discriminate.
Defined.

Lemma Verify_ignores_root_target_witness :
  InvocationTarget.ID (Capability.InvocationTarget capB)
  <> InvocationTarget.ID (Capability.InvocationTarget capB')
  /\ Verify (stubVerifier [capB]) (Some (prove capB "read"))
       (Some (invoke EmptyString "read" "urn:cap:B"))
     = Verify (stubVerifier [capB']) (Some (prove capB "read"))
         (Some (invoke EmptyString "read" "urn:cap:B")).
Proof.
  split; [discriminate|].
  apply (Verify_ignores_root_target (methods := stubMethods) (stubVerifier [capB]) (stubVerifier [capB'])
           (Some (prove capB "read")) (invoke EmptyString "read" "urn:cap:B")).
  - intros uri. simpl. destruct (String.eqb uri "urn:cap:B"); split; reflexivity.
  - reflexivity.
  - discriminate.
Defined.

Lemma Verify_invalid_root_URI_witness :
  Verify (stubVerifier [cap1]) (Some (prove capBadChain "read"))
    (Some (invoke EmptyString "read" EmptyString))
  = ([], Returns (Some (Errorf_w "invalid capability chain: "
                          (errorString "invalid rootURI format: map[id:urn:cap:1]")))).
Proof.
  apply (Verify_invalid_root_URI (methods := stubMethods) (stubVerifier [cap1])
           (prove capBadChain "read") (c := capBadChain)
           (invoke EmptyString "read" EmptyString)
           (d := "map[id:urn:cap:1]") (rest := [])); reflexivity.
Defined.

Lemma Verify_chain_structure_errors_witness :
  Verify (methods := strictMethods) (stubVerifier [cap1]) (Some (prove cap2 "read"))
    (Some (invoke EmptyString "read" EmptyString))
  = ([], Returns (Some (Errorf_w "invalid capability chain: "
                          (Errorf_w "invalid capability chain: "
                             (errors_New "malformed capabilityChain")))))
  /\ Verify (methods := brokenChainMethods) (stubVerifier [cap1])
       (Some (prove cap2 "read")) (Some (invoke EmptyString "read" EmptyString))
     = ([], Returns (Some (Errorf_w "invalid capability chain: "
                             (Errorf_w "failed to fetch capabilityChain: "
                                (errors_New "capabilityChain is not an array"))))).
Proof.
  split.
  - apply (proj1 (Verify_chain_structure_errors (methods := strictMethods)
                    (stubVerifier [cap1]) (prove cap2 "read") (c := cap2)
                    (invoke EmptyString "read" EmptyString)
                    eq_refl eq_refl eq_refl)).
    reflexivity.
  - apply (proj2 (Verify_chain_structure_errors (methods := brokenChainMethods)
                    (stubVerifier [cap1]) (prove cap2 "read") (c := cap2)
                    (invoke EmptyString "read" EmptyString)
                    eq_refl eq_refl eq_refl) [IString "urn:cap:1"]);
      reflexivity.
Defined.

Lemma Verify_accepts_iff_witness :
  result (Verify (stubVerifier [cap1]) (Some (prove cap2 "read"))
            (Some (invoke "urn:cap:1" "read" EmptyString)))
  = Returns None.
Proof.
  apply (proj2 (Verify_accepts_iff (methods := stubMethods) (stubVerifier [cap1]) (Some (prove cap2 "read"))
                  (Some (invoke "urn:cap:1" "read" EmptyString)))).
  exists (prove cap2 "read"), cap2, (invoke "urn:cap:1" "read" EmptyString), alice,
    false, "urn:cap:1", [], cap1, ["did:ex:alice"].
  split; [reflexivity|]. split; [reflexivity|]. split; [reflexivity|].
  split; [reaches_resolver|]. split; [reflexivity|].
  split; [right; reflexivity|]. split; [right; split; reflexivity|].
  split; [right; reflexivity|]. split; [reflexivity|]. split; [reflexivity|].
  right. split; [discriminate | left; reflexivity].
Defined.

Lemma Verify_error_kinds_witness :
  exists p c inv,
    Some (prove cap1 "read") = Some p /\ Proof_.Capability p = Some c
    /\ Some (invokeBy (Some bob) EmptyString "read" EmptyString) = Some inv
    /\ result (verifyCapabilityChain (stubVerifier [cap1]) (Some c)
                 (Proof_.CapabilityAction p)
                 (Some (invokeBy (Some bob) EmptyString "read" EmptyString)))
       = Returns None
    /\ exists l, invokers c = (l, None).
Proof.
  destruct (Verify_error_kinds (methods := stubMethods) (stubVerifier [cap1]) (Some (prove cap1 "read"))
              (Some (invokeBy (Some bob) EmptyString "read" EmptyString))
              (e := errNotInvoker) eq_refl)
    as [(Hmissing & _) | [(p & c & e' & _ & _ & _ & Hwrapped)
                         | (p & c & inv & Hp & Hc & Hi & Hok & Hkind)]].
  - discriminate Hmissing.
  - discriminate Hwrapped.
  - exists p, c, inv. repeat split; auto.
    destruct Hkind as [(l & err & _ & Hwrapped) | (Hl & _)];
      [discriminate Hwrapped | exact Hl].
Defined.

Lemma Verify_unauthorized_invoker_witness :
  Verify (stubVerifier [cap1]) (Some (prove cap1 "read"))
    (Some (invokeBy (Some bob) EmptyString "read" EmptyString))
  = (["urn:cap:1"], Returns (Some errNotInvoker)).
Proof.
  apply (proj2 (Verify_unauthorized_invoker (methods := stubMethods) (stubVerifier [cap1]) (prove cap1 "read")
                  (c := cap1) (invokeBy (Some bob) EmptyString "read" EmptyString)
                  (vm := bob) (l := ["did:ex:alice"]) eq_refl eq_refl eq_refl
                  ltac:(simpl; intros [H|[]]; discriminate H)
                  ltac:(right; simpl; intros [H|[]]; discriminate H))).
  reflexivity.
Defined.

Lemma Verify_no_invoker_listed_witness :
  result (Verify (stubVerifier [capNoInvoker]) (Some (prove capNoInvoker "read"))
            (Some (invoke EmptyString "read" EmptyString)))
  <> Returns None.
Proof.
  apply (Verify_no_invoker_listed (methods := stubMethods) (stubVerifier [capNoInvoker])
           (prove capNoInvoker "read") (c := capNoInvoker)
           (Some (invoke EmptyString "read" EmptyString))); reflexivity.
Defined.

Lemma Verify_invokers_error_witness :
  isInvoker (methods := brokenInvokersMethods) (Some cap1) None
  = ([], Returns (false, Some (Errorf_w "failed to fetch invokers: "
                                 (errors_New "no invoker"))))
  /\ Verify (methods := brokenInvokersMethods) (stubVerifier [cap1])
       (Some (prove cap1 "read")) (Some (invokeBy None EmptyString "read" EmptyString))
     = (["urn:cap:1"],
        Returns (Some (Errorf_w "isInvoke: "
                         (Errorf_w "failed to fetch invokers: "
                            (errors_New "no invoker"))))).
Proof.
  destruct (Verify_invokers_error (methods := brokenInvokersMethods)
              (stubVerifier [cap1]) (prove cap1 "read") (c := cap1)
              (invokeBy None EmptyString "read" EmptyString)
              (l := ["did:ex:alice"]) (err := errors_New "no invoker")
              ["urn:cap:1"] eq_refl eq_refl) as (Hinvoker & Hverify).
  split; [apply Hinvoker | apply Hverify; reflexivity].
Defined.

Lemma isInvoker_set_like_witness :
  isInvoker (Some cap1Shuffled) (Some alice) = isInvoker (Some cap1Carol) (Some alice).
Proof.
  apply (isInvoker_set_like (methods := stubMethods) cap1Shuffled cap1Carol
           (l := ["did:ex:carol"; "did:ex:alice"; "did:ex:carol"])
           (l' := ["did:ex:alice"; "did:ex:carol"]) (Some alice) eq_refl eq_refl).
  intros x. simpl. tauto.
Defined.

Lemma Verify_panics_iff_witness :
  result (Verify nilRootVerifier (Some (prove cap1 "read"))
            (Some (invoke EmptyString "read" EmptyString)))
  = Panics
  /\ result (Verify noResolverVerifier (Some (prove cap2 "read"))
               (Some (invoke EmptyString "read" EmptyString)))
     = Panics.
Proof.
  split.
  - apply (proj2 (Verify_panics_iff (methods := stubMethods) nilRootVerifier
                    (Some (prove cap1 "read"))
                    (Some (invoke EmptyString "read" EmptyString)))).
    right. right. right. left.
    exists (prove cap1 "read"), cap1, (invoke EmptyString "read" EmptyString),
      true, "urn:cap:1", [], {| Resolve := fun _ => (None, None) |}.
    split; [reflexivity|]. split; [reflexivity|]. split; [reflexivity|].
    split; [reaches_resolver|]. split; reflexivity.
  - apply (proj2 (Verify_panics_iff (methods := stubMethods) noResolverVerifier
                    (Some (prove cap2 "read"))
                    (Some (invoke EmptyString "read" EmptyString)))).
    right. right. left.
    exists (prove cap2 "read"), cap2, (invoke EmptyString "read" EmptyString),
      false, "urn:cap:1", [].
    split; [reflexivity|]. split; [reflexivity|]. split; [reflexivity|].
    split; [reaches_resolver | reflexivity].
Defined.

Lemma Verify_reads_of_capability_witness :
  Capability.ID cap2 <> Capability.ID cap2Moved
  /\ Capability.InvocationTarget cap2 <> Capability.InvocationTarget cap2Moved
  /\ Verify (stubVerifier [cap1]) (Some (prove cap2 "read"))
       (Some (invoke EmptyString "read" EmptyString))
     = Verify (stubVerifier [cap1]) (Some (prove cap2Moved "read"))
         (Some (invoke EmptyString "read" EmptyString)).
Proof.
  split; [discriminate|]. split; [discriminate|].
  apply (Verify_reads_of_capability (methods := stubMethods) (stubVerifier [cap1])
           cap2 cap2Moved "read" "did:ex:alice#key-1"
           (Some (invoke EmptyString "read" EmptyString)));
    try reflexivity.
  left. discriminate.
Defined.

